(** * physrisk.data.hazard_data_provider

    A shallow embedding of [src/physrisk/data/hazard_data_provider.py] and
    the properties of its scenario normaliser, its family path resolvers,
    its generic (inventory driven) resolver and its two data providers.

    Conventions of the embedding:
    - a Python [str] is a [string]; the functions below only compare,
      split, test prefixes of and concatenate strings, so the character
      type plays no role;
    - a Python [int] is a [Z];
    - a call that may raise returns a [result]: [Ok v] for a returned
      value, [Raise e] for a raised exception [e];
    - a [dict] is a [gmap];
    - [assert] statements are active (the interpreter runs without [-O]);
    - [os.path] is [posixpath]. *)

From Stdlib Require Import ZArith String Ascii List Lia.
From Stdlib Require DecimalString DecimalPos DecimalZ.
From stdpp Require Import base option list strings gmap fin_maps.

Local Open Scope string_scope.
Local Open Scope Z_scope.

(** ** Exceptions and fallible computations *)

(** The exceptions the module raises itself, and [OtherError] for whatever
    a collaborator (reader, taxonomy, [str.format]) may raise. *)
Inductive exn : Type :=
| ValueError (msg : string)
| KeyError (key : string)
| AssertionError
| IndexError
| OtherError (name : string).

Inductive result (A : Type) : Type :=
| Ok (a : A)
| Raise (e : exn).
Arguments Ok {A} a.
Arguments Raise {A} e.

#[global] Instance result_ret : MRet result := fun _ a => Ok a.
#[global] Instance result_bind : MBind result := fun _ _ f r =>
  match r with
  | Ok a => f a
  | Raise e => Raise e
  end.
#[global] Instance result_fmap : FMap result := fun _ _ f r =>
  match r with
  | Ok a => Ok (f a)
  | Raise e => Raise e
  end.

Definition raises {A} (r : result A) : Prop := ∃ e, r = Raise e.

(** [assert cond] *)
Definition py_assert (cond : bool) : result unit :=
  if cond then Ok tt else Raise AssertionError.

(** ** The fragment of Python's [str], [list] and [os.path] that is used *)

(** [x in xs] for a list (or set) of strings. *)
Definition str_in (x : string) (xs : list string) : bool :=
  existsb (String.eqb x) xs.
Arguments str_in : simpl never.

(** [s.split(sep)] for a one character separator: never empty, empty
    pieces are kept. *)
Fixpoint split (sep : ascii) (s : string) : list string :=
  match s with
  | EmptyString => [EmptyString]
  | String c s' =>
      if Ascii.eqb c sep then EmptyString :: split sep s'
      else match split sep s' with
           | [] => [String c EmptyString]
           | piece :: pieces => String c piece :: pieces
           end
  end.

(** [xs[i]] *)
Definition index {A} (xs : list A) (i : nat) : result A :=
  match xs !! i with
  | Some x => Ok x
  | None => Raise IndexError
  end.

(** [str(n)], which is also what [f"{n}"] inserts for an [int]. *)
Definition str_int (n : Z) : string :=
  DecimalString.NilZero.string_of_int (Z.to_int n).

(** [s.startswith(p)] *)
Definition startswith (s p : string) : bool := String.prefix p s.

(** [os.path.join(a, b)] *)
Definition os_path_join (a b : string) : string :=
  if startswith b "/" then b
  else if (String.eqb a "" || String.eqb (substring (String.length a - 1) 1 a) "/")%bool
       then a +:+ b
       else a +:+ "/" +:+ b.

(** ** Scenario normaliser *)

Definition cmip6_scenario_to_rcp (scenario : string) : result string :=
  if String.eqb scenario "ssp126" then Ok "rcp2p6"
  else if String.eqb scenario "ssp245" then Ok "rcp4p5"
  else if String.eqb scenario "ssp585" then Ok "rcp8p5"
  else if negb (str_in scenario ["rcp2p6"; "rcp4p5"; "rcp8p5"; "historical"])
       then Raise (ValueError ("unexpected scenario " +:+ scenario))
       else Ok scenario.

(** ** World Resource Aqueduct model *)

Definition _wri_inundation_prefix : string := "inundation/wri/v2".

Definition _percentiles_map : gmap string string :=
  {[ "95" := "0"; "5" := "0_perc_05"; "50" := "0_perc_50" ]}.

Definition _subsidence_set : gset string := {[ "wtsub"; "nosub" ]}.

(** [d[k]] for a dict with string keys. *)
Definition getitem {V} (d : gmap string V) (k : string) : result V :=
  match d !! k with
  | Some v => Ok v
  | None => Raise (KeyError k)
  end.

Definition get_source_path_wri_coastal_inundation
    (model scenario : string) (year : Z) : result string :=
  let type := "coast" in
  let model_components := split "/" model in
  sub ← index model_components 0;
  if negb (bool_decide (sub ∈ _subsidence_set)) then
    Raise (ValueError
      "expected model input of the form {subsidence/percentile}, e.g. wtsub/95, nosub/5, wtsub/50")
  else
    perc ← (if Nat.eqb (length model_components) 1 then Ok "95"
            else index model_components 1);
    rcp ← cmip6_scenario_to_rcp scenario;
    suffix ← getitem _percentiles_map perc;
    Ok (os_path_join _wri_inundation_prefix
          ("inun" +:+ type +:+ "_" +:+ rcp +:+ "_" +:+ sub +:+ "_"
             +:+ str_int year +:+ "_" +:+ suffix)).

Definition get_source_path_wri_riverine_inundation
    (model scenario : string) (year : Z) : result string :=
  let type := "river" in
  rcp ← cmip6_scenario_to_rcp scenario;
  Ok (os_path_join _wri_inundation_prefix
        ("inun" +:+ type +:+ "_" +:+ rcp +:+ "_" +:+ model +:+ "_" +:+ str_int year)).

(** ** OS-C chronic heat model *)

Definition _osc_chronic_heat_prefix : string := "chronic_heat/osc/v1".

Definition get_source_path_osc_chronic_heat
    (model scenario : string) (year : Z) : result string :=
  match split "/" model with
  | [] => Raise (ValueError "not enough values to unpack (expected at least 1, got 0)")
  | type :: levels =>
      if String.eqb type "mean_degree_days" then
        l0 ← index levels 0;
        py_assert (str_in l0 ["above"; "below"]);;
        l1 ← index levels 1;
        py_assert (str_in l1 ["18c"; "32c"]);;
        Ok (_osc_chronic_heat_prefix +:+ "/"
              +:+ (type +:+ "_" +:+ l0 +:+ "_" +:+ l1 +:+ "_" +:+ scenario
                     +:+ "_" +:+ str_int year))
      else if String.eqb type "mean_work_loss" then
        l0 ← index levels 0;
        py_assert (str_in l0 ["low"; "medium"; "high"]);;
        Ok (_osc_chronic_heat_prefix +:+ "/"
              +:+ (type +:+ "_" +:+ l0 +:+ "_" +:+ scenario +:+ "_" +:+ str_int year))
      else Raise (ValueError "valid types are {valid_types}")
  end.

(** ** Inventory and [pathlib] *)

(** The inventory's records, as far as the resolver reads them:
    [resource.path], [resource.array_name] and [resource.scenarios],
    and [s.id] of a scenario. *)
Module Scenario.
Record t : Type := Build { id : string }.
End Scenario.

Record HazardResource : Type := {
  path : string;
  array_name : string;
  scenarios : list Scenario.t
}.

(** [inventory.resources_by_type_id], keyed by (hazard type, id). *)
Abbreviation Inventory := (gmap (string * string) (list HazardResource)).

(** [sep.join(parts)] *)
Fixpoint str_join (sep : string) (parts : list string) : string :=
  match parts with
  | [] => ""
  | [piece] => piece
  | piece :: rest => piece +:+ sep +:+ str_join sep rest
  end.

(** [str(PosixPath(a, b))]: the segments are joined as [os.path.join]
    does, then empty and ["."] components are dropped; a root of one
    slash, or of exactly two, is kept, and the empty path prints as
    ["."]. *)
Definition PosixPath_str (a b : string) : string :=
  let joined := os_path_join a b in
  let root :=
    if (startswith joined "//" && negb (startswith joined "///"))%bool then "//"
    else if startswith joined "/" then "/" else "" in
  let parts :=
    filter (λ x, x ≠ "" ∧ x ≠ ".") (split "/" joined) in
  if (String.eqb root "" && Nat.eqb (length parts) 0)%bool then "."
  else root +:+ str_join "/" parts.

(** A resolver: (model, scenario, year) to a path, to [None], or to an
    exception. *)
Abbreviation SourcePath := (string → string → Z → result (option string)).

(** A family resolver, which always returns a [str], as a [SourcePath]. *)
Definition as_source_path (f : string → string → Z → result string) : SourcePath :=
  λ model scenario year, Some <$> f model scenario year.

(** A reference instance of [str.format(id=..., scenario=..., year=...)]
    for templates made of literal text, doubled braces and plain keyword
    fields such as [{id}]; conversions, format specifications and
    attribute or index access are outside it. *)
Fixpoint format_scan (kw : gmap string string) (field : option string)
    (template : string) : result string :=
  match template with
  | EmptyString =>
      match field with
      | None => Ok ""
      | Some _ => Raise (ValueError "expected '}' before end of string")
      end
  | String c rest =>
      match field with
      | Some name =>
          if Ascii.eqb c "}" then
            v ← getitem kw name;
            out ← format_scan kw None rest;
            Ok (v +:+ out)
          else format_scan kw (Some (name +:+ String c "")) rest
      | None =>
          if Ascii.eqb c "{" then
            match rest with
            | String "{" rest' => out ← format_scan kw None rest'; Ok (String "{" out)
            | _ => format_scan kw (Some "") rest
            end
          else if Ascii.eqb c "}" then
            match rest with
            | String "}" rest' => out ← format_scan kw None rest'; Ok (String "}" out)
            | _ => Raise (ValueError "Single '}' encountered in format string")
            end
          else out ← format_scan kw None rest; Ok (String c out)
      end
  end.

Definition format_fields (template id scenario : string) (year : Z) : result string :=
  format_scan {[ "id" := id; "scenario" := scenario; "year" := str_int year ]}
    None template.

(** ** Generic resolver *)

Section Generic.
(** [hazards.hazard_class], from the hazard taxonomy: the class of a
    hazard type, a class being identified by its name. *)
Variable hazard_class : string → result string.
(** [template.format(id=..., scenario=..., year=...)] *)
Variable str_format : string → string → string → Z → result string.

(** The [dict] comprehension at the head of [get_source_path_generic]. *)
Definition resources_dict (inventory : Inventory) (hazard_type : string)
    : result (gmap string HazardResource) :=
  map_fold
    (λ '(htype, id) resources acc,
       d ← acc;
       if String.eqb htype hazard_type then
         resource ← index resources 0;
         Ok (<[id := resource]> d)
       else Ok d)
    (Ok ∅) inventory.

(** The closure [get_source_path], over the variables it captures. *)
Definition get_source_path (resources_dict : gmap string HazardResource)
    (hazard_type : string) (embedded : option (gmap string SourcePath))
    : SourcePath :=
  λ model scenario year,
    match resources_dict !! model with
    | None =>
        match embedded with
        | None => Ok None
        | Some embedded =>
            cls ← hazard_class hazard_type;
            resolver ← getitem embedded cls;
            resolver model scenario year
        end
    | Some resource =>
        first ← index (scenarios resource) 0;
        proxy_scenario ←
          (if startswith (Scenario.id first) "rcp"
           then cmip6_scenario_to_rcp scenario
           else Ok scenario);
        name ← str_format (array_name resource) model proxy_scenario year;
        Ok (Some (PosixPath_str (path resource) name))
    end.

Definition get_source_path_generic (inventory : Inventory)
    (hazard_type : string) (embedded : option (gmap string SourcePath))
    : result SourcePath :=
  d ← resources_dict inventory hazard_type;
  Ok (get_source_path d hazard_type embedded).
End Generic.

(** ** Hazard data providers *)

(** A two dimensional [numpy] array, by its shape and its items. *)
Record ndarray (elt : Type) : Type := {
  nrows : nat;
  ncols : nat;
  item : nat → nat → elt
}.
Arguments nrows {elt} _.
Arguments ncols {elt} _.
Arguments item {elt} _ _ _.

(** [a[:, 0]]: one item per row; an array without columns has no index 0
    on its second axis. *)
Definition column0 {elt} (a : ndarray elt) : result (list elt) :=
  if Nat.eqb (ncols a) 0 then Raise IndexError
  else Ok (map (λ i, item a i 0%nat) (seq 0 (nrows a))).

Section Providers.
(** Coordinates, array items and dimension labels are only passed on,
    never computed with. *)
Context {float elt label : Type}.
(** The array store reader: its constructor [ZarrReader(store=store)]
    and its method [get_curves]. *)
Context {Store ZarrReader : Type}.
Variable ZarrReader_new : option Store → result ZarrReader.
Variable get_curves :
  ZarrReader → option string → list float → list float → string →
  result (ndarray elt * list label).

Record HazardDataProvider : Type := {
  _get_source_path : SourcePath;
  _reader : ZarrReader;
  _interpolation : string
}.

(** [HazardDataProvider.__init__]; the keyword defaults are
    [store=None], [zarr_reader=None] and [interpolation="floor"]. *)
Definition HazardDataProvider_init (get_source_path : SourcePath)
    (store : option Store) (zarr_reader : option ZarrReader)
    (interpolation : option string) : result HazardDataProvider :=
  reader ← match zarr_reader with
           | Some reader => Ok reader
           | None => ZarrReader_new store
           end;
  match interpolation with
  | Some mode =>
      if negb (str_in mode ["floor"; "linear"]) then
        Raise (ValueError "interpolation must be 'floor' or 'linear'")
      else Ok {| _get_source_path := get_source_path;
                 _reader := reader;
                 _interpolation := mode |}
  | None => Raise (ValueError "interpolation must be 'floor' or 'linear'")
  end.

Definition AcuteHazardDataProvider_init (get_source_path : SourcePath)
    (store : option Store) (zarr_reader : option ZarrReader)
    (interpolation : option string) : result HazardDataProvider :=
  HazardDataProvider_init get_source_path store zarr_reader interpolation.

Definition ChronicHazardDataProvider_init (get_source_path : SourcePath)
    (store : option Store) (zarr_reader : option ZarrReader)
    (interpolation : option string) : result HazardDataProvider :=
  HazardDataProvider_init get_source_path store zarr_reader interpolation.

Definition get_intensity_curves (self : HazardDataProvider)
    (longitudes latitudes : list float) (model scenario : string) (year : Z)
    : result (ndarray elt * list label) :=
  path ← _get_source_path self model scenario year;
  '(curves, return_periods) ←
    get_curves (_reader self) path longitudes latitudes (_interpolation self);
  Ok (curves, return_periods).

Definition get_parameters (self : HazardDataProvider)
    (longitudes latitudes : list float) (model scenario : string) (year : Z)
    : result (list elt) :=
  path ← _get_source_path self model scenario year;
  '(parameters, _) ←
    get_curves (_reader self) path longitudes latitudes (_interpolation self);
  column0 parameters.
End Providers.

(** ** A small inventory for the examples *)

Definition example_rcp_resource : HazardResource := {|
  path := "inundation/river_tudelft/v2";
  array_name := "flood_depth_{scenario}_{year}";
  scenarios := [Scenario.Build "historical"; Scenario.Build "rcp4p5";
                Scenario.Build "rcp8p5"]
|}.

Definition example_rcp_first_resource : HazardResource := {|
  path := "inundation/generic/v1";
  array_name := "{id}_{scenario}_{year}";
  scenarios := [Scenario.Build "rcp4p5"; Scenario.Build "rcp8p5"]
|}.

Definition example_ssp_resource : HazardResource := {|
  path := "chronic_heat/generic/v1";
  array_name := "{id}_{scenario}_{year}";
  scenarios := [Scenario.Build "ssp245"; Scenario.Build "ssp585"]
|}.

Definition example_inventory : Inventory :=
  {[ ("RiverineInundation", "modelA") :=
       [example_rcp_first_resource; example_rcp_resource];
     ("RiverineInundation", "modelB") := [example_ssp_resource];
     ("ChronicHeat", "modelC") := [example_rcp_resource] ]}.

Definition example_resources_dict : gmap string HazardResource :=
  {[ "modelA" := example_rcp_first_resource; "modelB" := example_ssp_resource ]}.

(** A taxonomy that knows no hazard type. *)
Definition example_hazard_class (hazard_type : string) : result string :=
  Raise (OtherError "AttributeError").

(** A reader over no store at all: whatever the path, it answers with one
    row per coordinate pair and three columns, the item at row [i] and
    column [j] being [10 * i + j], under the return periods 5, 50, 500. *)
Definition example_reader_new (store : option unit) : result unit := Ok tt.

Definition example_get_curves (reader : unit) (path : option string)
    (longitudes latitudes : list Z) (interpolation : string)
    : result (ndarray Z * list Z) :=
  Ok ({| nrows := length longitudes;
         ncols := 3;
         item := λ i j, 10 * Z.of_nat i + Z.of_nat j |},
      [5; 50; 500]).

Definition example_provider : HazardDataProvider (ZarrReader := unit) := {|
  _get_source_path := as_source_path get_source_path_osc_chronic_heat;
  _reader := tt;
  _interpolation := "linear"
|}.

(** ** Characters of a string *)

(** [c in s] for a one character [c]. *)
Fixpoint contains_char (c : ascii) (s : string) : bool :=
  match s with
  | EmptyString => false
  | String c' s' => (Ascii.eqb c' c || contains_char c s')%bool
  end.

(** A second inventory: model A once more, under another hazard type and
    without a second resource; a model registered without resources; a
    model whose resource declares no scenario. *)
Definition example_unscoped_resource : HazardResource := {|
  path := "wind/generic/v1";
  array_name := "{id}_{year}";
  scenarios := []
|}.

Definition example_other_inventory : Inventory :=
  {[ ("CoastalInundation", "modelA") := [example_rcp_first_resource];
     ("Wind", "modelW") := [example_unscoped_resource];
     ("Drought", "modelD") := [] ]}.

(** A taxonomy in which every hazard type names its own class. *)
Definition example_hazard_class_named (hazard_type : string) : result string :=
  Ok hazard_type.

Definition example_embedded : gmap string SourcePath :=
  {[ "RiverineInundation" := as_source_path get_source_path_wri_riverine_inundation;
     "CoastalInundation" := as_source_path get_source_path_wri_coastal_inundation ]}.

(** A store that cannot be reached, a reader that insists on a path, and
    a reader whose arrays have no column. *)
Definition example_reader_unavailable (store : option unit) : result unit :=
  Raise (OtherError "ConnectionError").

Definition example_strict_get_curves (reader : unit) (path : option string)
    (longitudes latitudes : list Z) (interpolation : string)
    : result (ndarray Z * list Z) :=
  match path with
  | None => Raise (OtherError "TypeError")
  | Some _ => example_get_curves reader path longitudes latitudes interpolation
  end.

Definition example_empty_get_curves (reader : unit) (path : option string)
    (longitudes latitudes : list Z) (interpolation : string)
    : result (ndarray Z * list Z) :=
  Ok ({| nrows := length longitudes; ncols := 0; item := λ _ _, 0 |}, []).

Definition example_generic_provider : HazardDataProvider (ZarrReader := unit) := {|
  _get_source_path :=
    get_source_path example_hazard_class format_fields example_resources_dict
      "RiverineInundation" None;
  _reader := tt;
  _interpolation := "floor"
|}.

(** * Properties *)

(** ** Strings and lists *)

(** Case analysis on [H : x ∈ [a; b; ...]]: one goal per element, each
    closed by [tac]. *)
Tactic Notation "elem_cases" hyp(H) "by" tactic3(tac) :=
  repeat (apply elem_of_cons in H as [->|H]; [tac|]);
  by apply elem_of_nil in H.

Lemma str_in_true (x : string) (xs : list string) :
  str_in x xs = true ↔ x ∈ xs.
Proof.
  unfold str_in. rewrite existsb_exists. split.
  - intros (y & Hy & Heq). apply String.eqb_eq in Heq as ->.
    by apply list_elem_of_In.
  - intros Hx. exists x. split; [by apply list_elem_of_In|apply String.eqb_refl].
Qed.

Lemma str_in_false (x : string) (xs : list string) :
  str_in x xs = false ↔ x ∉ xs.
Proof.
  rewrite <-str_in_true. destruct (str_in x xs); split; congruence.
Qed.

Lemma str_append_cons (ch : ascii) (a b : string) :
  String ch a +:+ b = String ch (a +:+ b).
Proof. reflexivity. Qed.

Lemma str_append_assoc (a b c : string) : (a +:+ b) +:+ c = a +:+ b +:+ c.
Proof.
  induction a as [|ch a IH]; [done|]. rewrite !str_append_cons. by f_equal.
Qed.

Lemma split_nonempty (sep : ascii) (s : string) : split sep s ≠ [].
Proof.
  destruct s as [|c s]; simpl; [done|].
  destruct (Ascii.eqb c sep); [done|]. by destruct (split sep s).
Qed.

(** A piece of a split holds no separator: splitting it again gives it back. *)
Lemma split_head_atomic (sep : ascii) (s piece : string) (pieces : list string) :
  split sep s = piece :: pieces → split sep piece = [piece].
Proof.
  revert piece pieces. induction s as [|c s IH]; intros piece pieces; simpl.
  - by intros [= <- <-].
  - destruct (Ascii.eqb c sep) eqn:Hc.
    + by intros [= <- <-].
    + destruct (split sep s) as [|x xs] eqn:Hs.
      * intros [= <- <-]. simpl. by rewrite Hc.
      * intros [= <- <-]. simpl. rewrite Hc. by rewrite (IH x xs eq_refl).
Qed.

(** The pieces after the first are the split of what follows the first
    separator. *)
Lemma split_tail (sep : ascii) (s p q : string) (ps : list string) :
  split sep s = p :: q :: ps → ∃ s', split sep s' = q :: ps.
Proof.
  revert p. induction s as [|c s IH]; intros p; simpl; [done|].
  destruct (Ascii.eqb c sep).
  - intros [= <- Hs]. eauto.
  - destruct (split sep s) as [|x xs] eqn:Hs; [done|].
    intros [= <- ->]. by eapply IH.
Qed.

Lemma split_app_sep (sep : ascii) (a b : string) :
  split sep a = [a] → split sep (a +:+ String sep b) = a :: split sep b.
Proof.
  induction a as [|c a IH]; [intros _; simpl; by rewrite Ascii.eqb_refl|].
  rewrite str_append_cons. simpl.
  - destruct (Ascii.eqb c sep); [done|].
    destruct (split sep a) as [|x xs] eqn:Hs; [by destruct (split_nonempty sep a)|].
    intros [= -> ->]. by rewrite (IH eq_refl).
Qed.

Lemma split_two (sep : ascii) (s p q : string) (ps : list string) :
  split sep s = p :: q :: ps → split sep (p +:+ String sep q) = [p; q].
Proof.
  intros Hs. rewrite split_app_sep by (by eapply split_head_atomic).
  destruct (split_tail _ _ _ _ _ Hs) as [s' Hs'].
  by rewrite (split_head_atomic _ _ _ _ Hs').
Qed.

(** ** Scenario normaliser *)

(** C1. [cmip6_scenario_to_rcp] maps ssp126, ssp245 and ssp585 to rcp2p6,
    rcp4p5 and rcp8p5, returns each of rcp2p6, rcp4p5, rcp8p5 and
    historical unchanged, and raises [ValueError] (the spec's
    InvalidScenario) on every other string. *)
Theorem cmip6_scenario_to_rcp_spec (scenario : string) :
  (scenario = "ssp126" → cmip6_scenario_to_rcp scenario = Ok "rcp2p6") ∧
  (scenario = "ssp245" → cmip6_scenario_to_rcp scenario = Ok "rcp4p5") ∧
  (scenario = "ssp585" → cmip6_scenario_to_rcp scenario = Ok "rcp8p5") ∧
  (scenario ∈ ["rcp2p6"; "rcp4p5"; "rcp8p5"; "historical"] →
     cmip6_scenario_to_rcp scenario = Ok scenario) ∧
  (scenario ∉ ["ssp126"; "ssp245"; "ssp585";
               "rcp2p6"; "rcp4p5"; "rcp8p5"; "historical"] →
     cmip6_scenario_to_rcp scenario
       = Raise (ValueError ("unexpected scenario " +:+ scenario))).
Proof.
  repeat split.
  - by intros ->.
  - by intros ->.
  - by intros ->.
  - intros Hin. elem_cases Hin by reflexivity.
  - intros Hnot. unfold cmip6_scenario_to_rcp.
    assert (str_in scenario ["rcp2p6"; "rcp4p5"; "rcp8p5"; "historical"] = false)
      as ->.
    { apply str_in_false. intros Hin. apply Hnot. by do 3 constructor. }
    repeat (apply not_elem_of_cons in Hnot as [Hne Hnot];
            apply String.eqb_neq in Hne; rewrite ?Hne; clear Hne).
    reflexivity.
Qed.

Lemma cmip6_scenario_to_rcp_spec_witness :
  cmip6_scenario_to_rcp "ssp245" = Ok "rcp4p5" ∧
  cmip6_scenario_to_rcp "historical" = Ok "historical" ∧
  cmip6_scenario_to_rcp "ssp370" = Raise (ValueError "unexpected scenario ssp370").
Proof.
  split; [|split].
  - apply (cmip6_scenario_to_rcp_spec "ssp245"). reflexivity.
  - apply (cmip6_scenario_to_rcp_spec "historical"). do 3 constructor. constructor.
  - apply (cmip6_scenario_to_rcp_spec "ssp370").
    repeat (apply not_elem_of_cons; split; [discriminate|]). apply not_elem_of_nil.
Defined.

(** ** Family resolvers *)

(** C6. The riverine resolver returns
    inundation/wri/v2/inunriver_rcp8p5_00000NorESM1-M_2050 on the spec's
    example; for any model string whatever, the model is copied into the
    path as it is, and the call fails only when the scenario does not
    normalise. *)
Theorem wri_riverine_path (model scenario : string) (year : Z) :
  get_source_path_wri_riverine_inundation "00000NorESM1-M" "rcp8p5" 2050
    = Ok "inundation/wri/v2/inunriver_rcp8p5_00000NorESM1-M_2050" ∧
  (∀ rcp, cmip6_scenario_to_rcp scenario = Ok rcp →
     get_source_path_wri_riverine_inundation model scenario year
       = Ok ("inundation/wri/v2/inunriver_" +:+ rcp +:+ "_" +:+ model
               +:+ "_" +:+ str_int year)) ∧
  (∀ e, cmip6_scenario_to_rcp scenario = Raise e →
     get_source_path_wri_riverine_inundation model scenario year = Raise e).
Proof.
  split; [reflexivity|]. unfold get_source_path_wri_riverine_inundation.
  split; intros x ->; reflexivity.
Qed.

Lemma wri_riverine_path_witness :
  get_source_path_wri_riverine_inundation "no/such model//" "ssp245" (-3)
    = Ok "inundation/wri/v2/inunriver_rcp4p5_no/such model//_-3" ∧
  get_source_path_wri_riverine_inundation "00000NorESM1-M" "ssp370" 2050
    = Raise (ValueError "unexpected scenario ssp370").
Proof.
  split.
  - exact (proj1 (proj2 (wri_riverine_path "no/such model//" "ssp245" (-3)))
             "rcp4p5" eq_refl).
  - exact (proj2 (proj2 (wri_riverine_path "00000NorESM1-M" "ssp370" 2050))
             (ValueError "unexpected scenario ssp370") eq_refl).
Defined.

(** C4. The OS-C chronic heat resolver returns
    chronic_heat/osc/v1/mean_work_loss_high_ssp585_2100 on the spec's
    example; a mean_work_loss model with level low, medium or high gives
    chronic_heat/osc/v1/mean_work_loss_{level}_{scenario}_{year}; and
    whenever the resolver returns a path, the path ends in the caller's
    scenario and the year, and any other scenario string, normalisable or
    not, is embedded in the same way. *)
Theorem osc_chronic_heat_scenario_verbatim (model scenario : string) (year : Z) :
  get_source_path_osc_chronic_heat "mean_work_loss/high" "ssp585" 2100
    = Ok "chronic_heat/osc/v1/mean_work_loss_high_ssp585_2100" ∧
  (∀ level, level ∈ ["low"; "medium"; "high"] →
     get_source_path_osc_chronic_heat ("mean_work_loss/" +:+ level) scenario year
       = Ok ("chronic_heat/osc/v1/mean_work_loss_" +:+ level +:+ "_" +:+ scenario
               +:+ "_" +:+ str_int year)) ∧
  (∀ p, get_source_path_osc_chronic_heat model scenario year = Ok p →
     ∃ stem,
       p = stem +:+ "_" +:+ scenario +:+ "_" +:+ str_int year ∧
       ∀ scenario' year',
         get_source_path_osc_chronic_heat model scenario' year'
           = Ok (stem +:+ "_" +:+ scenario' +:+ "_" +:+ str_int year')).
Proof.
  split; [reflexivity|]. split.
  - intros level Hin. elem_cases Hin by reflexivity.
  - intros p. unfold get_source_path_osc_chronic_heat.
    destruct (split "/" model) as [|type levels]; [intros [=]|].
    destruct (String.eqb type "mean_degree_days").
    + destruct (index levels 0) as [l0|]; simpl; [|intros [=]].
      destruct (py_assert (str_in l0 ["above"; "below"])) as [[]|]; simpl;
        [|intros [=]].
      destruct (index levels 1) as [l1|]; simpl; [|intros [=]].
      destruct (py_assert (str_in l1 ["18c"; "32c"])) as [[]|]; simpl;
        [|intros [=]].
      intros [= <-].
      exists (_osc_chronic_heat_prefix +:+ "/" +:+ type +:+ "_" +:+ l0 +:+ "_" +:+ l1).
      split; [|intros ??]; by rewrite !str_append_assoc.
    + destruct (String.eqb type "mean_work_loss"); [|intros [=]].
      destruct (index levels 0) as [l0|]; simpl; [|intros [=]].
      destruct (py_assert (str_in l0 ["low"; "medium"; "high"])) as [[]|]; simpl;
        [|intros [=]].
      intros [= <-].
      exists (_osc_chronic_heat_prefix +:+ "/" +:+ type +:+ "_" +:+ l0).
      split; [|intros ??]; by rewrite !str_append_assoc.
Qed.

Lemma osc_chronic_heat_scenario_verbatim_witness :
  get_source_path_osc_chronic_heat "mean_work_loss/low" "ssp370" 2030
    = Ok "chronic_heat/osc/v1/mean_work_loss_low_ssp370_2030" ∧
  ∃ stem,
    "chronic_heat/osc/v1/mean_degree_days_above_32c_ssp585_2050"
      = stem +:+ "_" +:+ "ssp585" +:+ "_" +:+ str_int 2050 ∧
    ∀ scenario' year',
      get_source_path_osc_chronic_heat "mean_degree_days/above/32c" scenario' year'
        = Ok (stem +:+ "_" +:+ scenario' +:+ "_" +:+ str_int year').
Proof.
  split.
  - refine (proj1 (proj2 (osc_chronic_heat_scenario_verbatim "" "ssp370" 2030))
              "low" _).
    constructor.
  - exact (proj2 (proj2 (osc_chronic_heat_scenario_verbatim
                           "mean_degree_days/above/32c" "ssp585" 2050))
             _ eq_refl).
Defined.

(** C5. For a WRI coastal model sub/perc with sub wtsub or nosub and
    perc 95, 5 or 50, and a scenario that normalises to rcp, the resolver
    returns inundation/wri/v2/inuncoast_{rcp}_{sub}_{year}_{suffix} with
    suffix 0, 0_perc_05 or 0_perc_50 respectively; a model that is
    the subsidence token alone resolves as sub/95 does. *)
Theorem wri_coastal_path (sub scenario : string) (year : Z) :
  sub ∈ ["wtsub"; "nosub"] →
  get_source_path_wri_coastal_inundation sub scenario year
    = get_source_path_wri_coastal_inundation (sub +:+ "/" +:+ "95") scenario year ∧
  ∀ perc suffix rcp,
    (perc, suffix) ∈ [("95", "0"); ("5", "0_perc_05"); ("50", "0_perc_50")] →
    cmip6_scenario_to_rcp scenario = Ok rcp →
    get_source_path_wri_coastal_inundation (sub +:+ "/" +:+ perc) scenario year
      = Ok ("inundation/wri/v2/inuncoast_" +:+ rcp +:+ "_" +:+ sub +:+ "_"
              +:+ str_int year +:+ "_" +:+ suffix).
Proof.
  intros Hsub. split.
  - elem_cases Hsub by reflexivity.
  - intros perc suffix rcp Hperc Hrcp.
    unfold get_source_path_wri_coastal_inundation.
    repeat (apply elem_of_cons in Hsub as [->|Hsub];
      [repeat (apply elem_of_cons in Hperc as [[= -> ->]|Hperc];
         [vm_compute split; simpl; rewrite Hrcp; reflexivity|]);
       by apply elem_of_nil in Hperc|]).
    by apply elem_of_nil in Hsub.
Qed.

Lemma wri_coastal_path_witness :
  get_source_path_wri_coastal_inundation "nosub" "ssp585" 2080
    = get_source_path_wri_coastal_inundation "nosub/95" "ssp585" 2080 ∧
  get_source_path_wri_coastal_inundation "nosub/5" "ssp585" 2080
    = Ok "inundation/wri/v2/inuncoast_rcp8p5_nosub_2080_0_perc_05".
Proof.
  assert (Hsub : "nosub" ∈ ["wtsub"; "nosub"]) by (constructor; constructor).
  split.
  - exact (proj1 (wri_coastal_path "nosub" "ssp585" 2080 Hsub)).
  - refine (proj2 (wri_coastal_path "nosub" "ssp585" 2080 Hsub)
              "5" "0_perc_05" "rcp8p5" _ eq_refl).
    constructor. constructor.
Defined.

(** C10. A WRI coastal model with three or more components resolves
    exactly as the model cut down to its first two components: whatever
    follows the second component is never read. With a first component
    wtsub or nosub both calls go on to the scenario and the percentile;
    with any other first component both raise the same [ValueError]. *)
Theorem wri_coastal_ignores_extra_components (model scenario : string) (year : Z) :
  (3 ≤ length (split "/" model))%nat →
  get_source_path_wri_coastal_inundation model scenario year
    = get_source_path_wri_coastal_inundation
        (str_join "/" (take 2 (split "/" model))) scenario year.
Proof.
  intros Hlen. unfold get_source_path_wri_coastal_inundation.
  destruct (split "/" model) as [|sub [|perc [|third rest]]] eqn:Hsplit;
    simpl in Hlen; try lia.
  change (str_join "/" (take 2 (sub :: perc :: third :: rest)))
    with (sub +:+ String "/" perc).
  by rewrite (split_two _ _ _ _ _ Hsplit).
Qed.

Lemma wri_coastal_ignores_extra_components_witness :
  get_source_path_wri_coastal_inundation "wtsub/95/extra" "ssp245" 2050
    = get_source_path_wri_coastal_inundation "wtsub/95" "ssp245" 2050.
Proof.
  refine (wri_coastal_ignores_extra_components "wtsub/95/extra" "ssp245" 2050 _).
  vm_compute. lia.
Defined.

Example wri_coastal_extra_component_path :
  get_source_path_wri_coastal_inundation "wtsub/95/extra" "ssp245" 2050
    = Ok "inundation/wri/v2/inuncoast_rcp4p5_wtsub_2050_0".
Proof. reflexivity. Qed.

(** C9. What the OS-C chronic heat resolver rejects (the spec's
    InvalidModel): a mean_degree_days model without a first level in
    above, below or without a second level in 18c, 32c; a mean_work_loss
    model without a level in low, medium, high; any other first
    component. A missing token is an [IndexError], a token outside its
    list an [AssertionError], an unknown type a [ValueError]. *)
Theorem osc_chronic_heat_invalid_model
    (model scenario type : string) (levels : list string) (year : Z) :
  split "/" model = type :: levels →
  (type = "mean_degree_days" →
     (∀ l0, levels !! 0%nat = Some l0 → l0 ∉ ["above"; "below"]) ∨
     (∀ l1, levels !! 1%nat = Some l1 → l1 ∉ ["18c"; "32c"]) →
     get_source_path_osc_chronic_heat model scenario year = Raise IndexError ∨
     get_source_path_osc_chronic_heat model scenario year = Raise AssertionError) ∧
  (type = "mean_work_loss" →
     (∀ l0, levels !! 0%nat = Some l0 → l0 ∉ ["low"; "medium"; "high"]) →
     get_source_path_osc_chronic_heat model scenario year = Raise IndexError ∨
     get_source_path_osc_chronic_heat model scenario year = Raise AssertionError) ∧
  (type ≠ "mean_degree_days" → type ≠ "mean_work_loss" →
     get_source_path_osc_chronic_heat model scenario year
       = Raise (ValueError "valid types are {valid_types}")).
Proof.
  intros Hsplit. unfold get_source_path_osc_chronic_heat, index. rewrite Hsplit.
  split; [|split].
  - intros -> Hbad. simpl.
    destruct (levels !! 0%nat) as [l0|] eqn:H0; simpl; [|by left].
    destruct (str_in l0 ["above"; "below"]) eqn:Hin0; simpl; [|by right].
    destruct (levels !! 1%nat) as [l1|] eqn:H1; simpl; [|by left].
    destruct (str_in l1 ["18c"; "32c"]) eqn:Hin1; simpl; [|by right].
    apply str_in_true in Hin0, Hin1.
    destruct Hbad as [Hbad|Hbad]; [by destruct (Hbad l0)|by destruct (Hbad l1)].
  - intros -> Hbad. simpl.
    destruct (levels !! 0%nat) as [l0|] eqn:H0; simpl; [|by left].
    destruct (str_in l0 ["low"; "medium"; "high"]) eqn:Hin0; simpl; [|by right].
    apply str_in_true in Hin0. by destruct (Hbad l0).
  - intros Hne1%String.eqb_neq Hne2%String.eqb_neq. by rewrite Hne1, Hne2.
Qed.

Lemma osc_chronic_heat_invalid_model_witness :
  (get_source_path_osc_chronic_heat "mean_degree_days/above" "ssp585" 2050
     = Raise IndexError ∨
   get_source_path_osc_chronic_heat "mean_degree_days/above" "ssp585" 2050
     = Raise AssertionError) ∧
  (get_source_path_osc_chronic_heat "mean_work_loss/extreme" "ssp585" 2050
     = Raise IndexError ∨
   get_source_path_osc_chronic_heat "mean_work_loss/extreme" "ssp585" 2050
     = Raise AssertionError) ∧
  get_source_path_osc_chronic_heat "mean_wind/high" "ssp585" 2050
    = Raise (ValueError "valid types are {valid_types}").
Proof.
  split; [|split].
  - refine (proj1 (osc_chronic_heat_invalid_model "mean_degree_days/above"
                     "ssp585" "mean_degree_days" ["above"] 2050 eq_refl) eq_refl _).
    right. intros l1 [=].
  - refine (proj1 (proj2 (osc_chronic_heat_invalid_model "mean_work_loss/extreme"
                            "ssp585" "mean_work_loss" ["extreme"] 2050 eq_refl))
              eq_refl _).
    intros l0 [= <-]. repeat (apply not_elem_of_cons; split; [discriminate|]).
    apply not_elem_of_nil.
  - refine (proj2 (proj2 (osc_chronic_heat_invalid_model "mean_wind/high"
                            "ssp585" "mean_wind" ["high"] 2050 eq_refl)) _ _);
      discriminate.
Defined.

Example osc_chronic_heat_rejections :
  get_source_path_osc_chronic_heat "mean_degree_days" "ssp585" 2050 = Raise IndexError ∧
  get_source_path_osc_chronic_heat "mean_degree_days/over/18c" "ssp585" 2050
    = Raise AssertionError ∧
  get_source_path_osc_chronic_heat "mean_degree_days/above" "ssp585" 2050
    = Raise IndexError ∧
  get_source_path_osc_chronic_heat "mean_degree_days/above/20c" "ssp585" 2050
    = Raise AssertionError ∧
  get_source_path_osc_chronic_heat "mean_work_loss" "ssp585" 2050 = Raise IndexError ∧
  get_source_path_osc_chronic_heat "mean_work_loss/extreme" "ssp585" 2050
    = Raise AssertionError ∧
  get_source_path_osc_chronic_heat "mean_degree_days/below/32c" "ssp585" 2050
    = Ok "chronic_heat/osc/v1/mean_degree_days_below_32c_ssp585_2050".
Proof. repeat split. Qed.

(** ** Generic resolver *)

Lemma startswith_spec (s p : string) :
  startswith s p = true ↔ ∃ tail, s = p +:+ tail.
Proof.
  unfold startswith. revert s. induction p as [|a p IH]; intros s.
  - split; [intros _; by exists s|by destruct s].
  - destruct s as [|b s]; simpl.
    + split; [done|]. by intros [tail [=]].
    + destruct (ascii_dec a b) as [->|Hne].
      * rewrite IH. split; intros [tail Htail]; exists tail.
        -- by rewrite str_append_cons, Htail.
        -- rewrite str_append_cons in Htail. by injection Htail.
      * split; [done|]. intros [tail Htail].
        rewrite str_append_cons in Htail. by injection Htail as -> _.
Qed.

(** The mapping holds, for each id registered under the hazard type, the
    first resource of that id. *)
Lemma resources_dict_lookup (inventory : Inventory) (hazard_type : string)
    (d : gmap string HazardResource) :
  resources_dict inventory hazard_type = Ok d →
  ∀ id, d !! id = inventory !! (hazard_type, id) ≫= head.
Proof.
  unfold resources_dict. revert d.
  apply (map_fold_weak_ind (λ r (m : Inventory),
    ∀ d, r = Ok d → ∀ id, d !! id = m !! (hazard_type, id) ≫= head)).
  - intros d [= <-] id. by rewrite !lookup_empty.
  - intros [htype id'] resources m r Hfresh IH d Hd id.
    destruct r as [d0|]; [|done]. simpl in Hd.
    destruct (String.eqb_spec htype hazard_type) as [->|Hne].
    + destruct resources as [|resource others]; [done|].
      injection Hd as <-.
      destruct (decide (id' = id)) as [->|Hid].
      * by rewrite !lookup_insert_eq.
      * rewrite !lookup_insert_ne by congruence. by apply IH.
    + injection Hd as <-. rewrite lookup_insert_ne by congruence. by apply IH.
Qed.

(** Building the mapping fails only on an id of the hazard type that is
    registered with no resource at all. *)
Lemma resources_dict_total (inventory : Inventory) (hazard_type : string) :
  (∀ id, inventory !! (hazard_type, id) ≠ Some []) →
  ∃ d, resources_dict inventory hazard_type = Ok d.
Proof.
  unfold resources_dict.
  apply (map_fold_weak_ind (λ r (m : Inventory),
    (∀ id, m !! (hazard_type, id) ≠ Some []) → ∃ d, r = Ok d)).
  - by eexists.
  - intros [htype id'] resources m r Hfresh IH Hall.
    destruct IH as [d0 ->].
    { intros id Hid. destruct (decide ((htype, id') = (hazard_type, id))) as [Heq|Hne].
      - by rewrite Heq, Hid in Hfresh.
      - apply (Hall id). by rewrite lookup_insert_ne. }
    simpl. destruct (String.eqb_spec htype hazard_type) as [->|Hne]; [|by eexists].
    destruct resources as [|resource others]; [|by eexists].
    by destruct (Hall id'); rewrite lookup_insert_eq.
Qed.

Section GenericProperties.
Variable hazard_class : string → result string.
Variable str_format : string → string → string → Z → result string.

Lemma get_source_path_generic_inv (inventory : Inventory) (hazard_type : string)
    (embedded : option (gmap string SourcePath)) (resolver : SourcePath) :
  get_source_path_generic hazard_class str_format inventory hazard_type embedded
    = Ok resolver →
  ∃ d, resources_dict inventory hazard_type = Ok d ∧
       resolver = get_source_path hazard_class str_format d hazard_type embedded.
Proof.
  unfold get_source_path_generic.
  destruct (resources_dict inventory hazard_type) as [d|]; [|done].
  intros [= <-]. by exists d.
Qed.

(** C2. For a model found in the mapping of the generic resolver, with
    [first] the first scenario its resource declares: if the id of
    [first] starts with rcp, the resolver normalises the caller's
    scenario with [cmip6_scenario_to_rcp] and formats the array name
    template with the outcome (or raises what the normaliser raises); if
    it does not, the template is formatted with the caller's scenario as
    it is. *)
Theorem generic_proxy_scenario (inventory : Inventory) (hazard_type : string)
    (embedded : option (gmap string SourcePath)) (resolver : SourcePath)
    (d : gmap string HazardResource) (model scenario : string) (year : Z)
    (resource : HazardResource) (first : Scenario.t) (rest : list Scenario.t) :
  get_source_path_generic hazard_class str_format inventory hazard_type embedded
    = Ok resolver →
  resources_dict inventory hazard_type = Ok d →
  d !! model = Some resource →
  scenarios resource = first :: rest →
  ((∃ tail, Scenario.id first = "rcp" +:+ tail) →
     resolver model scenario year
       = rcp ← cmip6_scenario_to_rcp scenario;
         name ← str_format (array_name resource) model rcp year;
         Ok (Some (PosixPath_str (path resource) name))) ∧
  (¬ (∃ tail, Scenario.id first = "rcp" +:+ tail) →
     resolver model scenario year
       = name ← str_format (array_name resource) model scenario year;
         Ok (Some (PosixPath_str (path resource) name))).
Proof.
  intros Hgen Hd Hmodel Hfirst.
  apply get_source_path_generic_inv in Hgen as (d' & Hd' & ->).
  rewrite Hd in Hd'. injection Hd' as <-.
  unfold get_source_path, index. rewrite Hmodel, Hfirst. simpl.
  split; intros Hrcp.
  - apply startswith_spec in Hrcp. by rewrite Hrcp.
  - destruct (startswith (Scenario.id first) "rcp") eqn:Hsw; [|done].
    by apply startswith_spec in Hsw.
Qed.

(** C3. When the model is not in the mapping and no embedded fallback was
    supplied, the resolver returns [None]: no exception, whatever the
    scenario and the year. *)
Theorem generic_miss_is_none (inventory : Inventory) (hazard_type : string)
    (resolver : SourcePath) (d : gmap string HazardResource)
    (model scenario : string) (year : Z) :
  get_source_path_generic hazard_class str_format inventory hazard_type None
    = Ok resolver →
  resources_dict inventory hazard_type = Ok d →
  d !! model = None →
  resolver model scenario year = Ok None.
Proof.
  intros Hgen Hd Hmodel.
  apply get_source_path_generic_inv in Hgen as (d' & Hd' & ->).
  rewrite Hd in Hd'. injection Hd' as <-.
  unfold get_source_path. by rewrite Hmodel.
Qed.
End GenericProperties.

Lemma example_resources_dict_built :
  resources_dict example_inventory "RiverineInundation" = Ok example_resources_dict.
Proof. vm_compute. reflexivity. Qed.

Lemma generic_proxy_scenario_witness :
  get_source_path example_hazard_class format_fields example_resources_dict
    "RiverineInundation" None "modelA" "ssp245" 2050
    = Ok (Some "inundation/generic/v1/modelA_rcp4p5_2050") ∧
  get_source_path example_hazard_class format_fields example_resources_dict
    "RiverineInundation" None "modelB" "ssp245" 2050
    = Ok (Some "chronic_heat/generic/v1/modelB_ssp245_2050").
Proof.
  split.
  - refine (proj1 (generic_proxy_scenario example_hazard_class format_fields
                     example_inventory "RiverineInundation" None _
                     example_resources_dict "modelA" "ssp245" 2050
                     example_rcp_first_resource (Scenario.Build "rcp4p5")
                     [Scenario.Build "rcp8p5"] _ _ _ _) _).
    + unfold get_source_path_generic.
      rewrite example_resources_dict_built. reflexivity.
    + exact example_resources_dict_built.
    + reflexivity.
    + reflexivity.
    + by exists "4p5".
  - refine (proj2 (generic_proxy_scenario example_hazard_class format_fields
                     example_inventory "RiverineInundation" None _
                     example_resources_dict "modelB" "ssp245" 2050
                     example_ssp_resource (Scenario.Build "ssp245")
                     [Scenario.Build "ssp585"] _ _ _ _) _).
    + unfold get_source_path_generic.
      rewrite example_resources_dict_built. reflexivity.
    + exact example_resources_dict_built.
    + reflexivity.
    + reflexivity.
    + intros [tail [=]].
Defined.

Lemma generic_miss_is_none_witness :
  get_source_path example_hazard_class format_fields example_resources_dict
    "RiverineInundation" None "modelC" "not a scenario" 2050 = Ok None.
Proof.
  refine (generic_miss_is_none example_hazard_class format_fields
            example_inventory "RiverineInundation" _ example_resources_dict
            "modelC" "not a scenario" 2050 _ _ _).
  - unfold get_source_path_generic.
    rewrite example_resources_dict_built. reflexivity.
  - exact example_resources_dict_built.
  - reflexivity.
Defined.

(** ** Hazard data providers *)

Section ProviderProperties.
Context {float elt label Store ZarrReader : Type}.
Variable ZarrReader_new : option Store → result ZarrReader.
Variable get_curves :
  ZarrReader → option string → list float → list float → string →
  result (ndarray elt * list label).

(** Whatever the reader does, an illegal mode never yields a provider. *)
Lemma provider_init_illegal_mode_never_builds (get_source_path : SourcePath)
    (store : option Store) (zarr_reader : option ZarrReader)
    (interpolation : option string) :
  interpolation ≠ Some "floor" → interpolation ≠ Some "linear" →
  raises (HazardDataProvider_init ZarrReader_new get_source_path store
            zarr_reader interpolation).
Proof.
  intros Hfloor Hlinear. unfold HazardDataProvider_init, raises.
  destruct zarr_reader as [reader|]; [|destruct (ZarrReader_new store) as [reader|]];
    simpl; try by eexists.
  all: destruct interpolation as [mode|]; [|by eexists].
  all: destruct (str_in mode ["floor"; "linear"]) eqn:Hin; simpl; [|by eexists].
  all: apply str_in_true in Hin.
  all: elem_cases Hin by done.
Qed.

(** C8, as amended. The constructor obtains its reader before it looks
    at the mode, so the claim holds with the reader handle at hand:
    passed in as [zarr_reader], or returned by [ZarrReader(store=store)].
    Then each of the three constructors raises [ValueError] (the spec's
    InvalidConfiguration) for an interpolation mode other than floor and
    linear, and returns the provider, holding the resolver, the reader
    and the mode, for floor and for linear. *)
Theorem provider_init_validates_interpolation
    (init : SourcePath → option Store → option ZarrReader → option string →
            result (HazardDataProvider (ZarrReader := ZarrReader)))
    (get_source_path : SourcePath) (store : option Store)
    (zarr_reader : option ZarrReader) (interpolation : option string)
    (reader : ZarrReader) :
  init ∈ [HazardDataProvider_init ZarrReader_new;
          AcuteHazardDataProvider_init ZarrReader_new;
          ChronicHazardDataProvider_init ZarrReader_new] →
  zarr_reader = Some reader ∨
    (zarr_reader = None ∧ ZarrReader_new store = Ok reader) →
  (interpolation ≠ Some "floor" → interpolation ≠ Some "linear" →
     init get_source_path store zarr_reader interpolation
       = Raise (ValueError "interpolation must be 'floor' or 'linear'")) ∧
  (∀ mode, interpolation = Some mode → mode ∈ ["floor"; "linear"] →
     init get_source_path store zarr_reader interpolation
       = Ok {| _get_source_path := get_source_path;
               _reader := reader;
               _interpolation := mode |}).
Proof.
  intros Hinit Hreader.
  assert (init = HazardDataProvider_init ZarrReader_new) as ->.
  { elem_cases Hinit by reflexivity. }
  unfold HazardDataProvider_init.
  assert (match zarr_reader with
          | Some r => Ok r
          | None => ZarrReader_new store
          end = Ok reader) as ->.
  { by destruct Hreader as [->|[-> ->]]. }
  simpl. split.
  - intros Hfloor Hlinear. destruct interpolation as [mode|]; [|done].
    destruct (str_in mode ["floor"; "linear"]) eqn:Hin; [|done].
    apply str_in_true in Hin. elem_cases Hin by done.
  - intros mode -> Hin. apply str_in_true in Hin. by rewrite Hin.
Qed.

(** [get_parameters] is [get_intensity_curves] followed by [[:, 0]]. *)
Lemma get_parameters_via_curves (self : HazardDataProvider)
    (longitudes latitudes : list float) (model scenario : string) (year : Z) :
  get_parameters get_curves self longitudes latitudes model scenario year
    = get_intensity_curves get_curves self longitudes latitudes model scenario year
        ≫= λ curves_periods, column0 curves_periods.1.
Proof.
  unfold get_parameters, get_intensity_curves.
  destruct (_get_source_path self model scenario year) as [path|]; [|done]. simpl.
  by destruct (get_curves _ _ _ _ _) as [[curves return_periods]|].
Qed.

Lemma column0_items (a : ndarray elt) :
  (0 < ncols a)%nat →
  ∃ column, column0 a = Ok column ∧
            length column = nrows a ∧
            ∀ i, (i < nrows a)%nat → column !! i = Some (item a i 0%nat).
Proof.
  intros Hcols. unfold column0.
  destruct (Nat.eqb_spec (ncols a) 0) as [Hzero|_]; [lia|].
  eexists. split; [done|]. split.
  - by rewrite length_map, length_seq.
  - intros i Hi. rewrite list_lookup_fmap.
    by rewrite lookup_seq_lt.
Qed.

(** C7. Take a chronic and an acute provider constructed from the same
    arguments, and let the reader's [get_curves] return [curves] with its
    dimension labels for the resolved path, the coordinates and the mode.
    Then [get_intensity_curves] of the acute provider returns exactly
    that pair, and [get_parameters] of the chronic provider returns
    column 0 of [curves]: one value per row, the one at column index 0,
    the labels being dropped. *)
Theorem get_parameters_is_column0 (get_source_path : SourcePath)
    (store : option Store) (zarr_reader : option ZarrReader)
    (interpolation : option string) (chronic acute : HazardDataProvider)
    (longitudes latitudes : list float) (model scenario : string) (year : Z)
    (path : option string) (curves : ndarray elt) (return_periods : list label) :
  ChronicHazardDataProvider_init ZarrReader_new get_source_path store
    zarr_reader interpolation = Ok chronic →
  AcuteHazardDataProvider_init ZarrReader_new get_source_path store
    zarr_reader interpolation = Ok acute →
  _get_source_path chronic model scenario year = Ok path →
  get_curves (_reader chronic) path longitudes latitudes (_interpolation chronic)
    = Ok (curves, return_periods) →
  (0 < ncols curves)%nat →
  get_intensity_curves get_curves acute longitudes latitudes model scenario year
    = Ok (curves, return_periods) ∧
  ∃ parameters,
    get_parameters get_curves chronic longitudes latitudes model scenario year
      = Ok parameters ∧
    length parameters = nrows curves ∧
    ∀ i, (i < nrows curves)%nat → parameters !! i = Some (item curves i 0%nat).
Proof.
  unfold ChronicHazardDataProvider_init, AcuteHazardDataProvider_init.
  intros Hchronic Hacute Hpath Hcurves Hcols.
  rewrite Hchronic in Hacute. injection Hacute as <-.
  assert (get_intensity_curves get_curves chronic longitudes latitudes model
            scenario year = Ok (curves, return_periods)) as Hacute.
  { unfold get_intensity_curves. rewrite Hpath. simpl. by rewrite Hcurves. }
  split; [done|].
  rewrite get_parameters_via_curves, Hacute. simpl.
  by apply column0_items.
Qed.
End ProviderProperties.

Lemma provider_init_validates_interpolation_witness :
  AcuteHazardDataProvider_init example_reader_new
    (as_source_path get_source_path_osc_chronic_heat) None None (Some "cubic")
    = Raise (ValueError "interpolation must be 'floor' or 'linear'") ∧
  ChronicHazardDataProvider_init example_reader_new
    (as_source_path get_source_path_osc_chronic_heat) None (Some tt) (Some "linear")
    = Ok example_provider.
Proof.
  split.
  - refine (proj1 (provider_init_validates_interpolation example_reader_new
                     (AcuteHazardDataProvider_init example_reader_new)
                     (as_source_path get_source_path_osc_chronic_heat)
                     None None (Some "cubic") tt _ _) _ _).
    + constructor.
    + right. split; reflexivity.
    + discriminate.
    + discriminate.
  - refine (proj2 (provider_init_validates_interpolation example_reader_new
                     (ChronicHazardDataProvider_init example_reader_new)
                     (as_source_path get_source_path_osc_chronic_heat)
                     None (Some tt) (Some "linear") tt _ _) "linear" eq_refl _).
    + constructor.
    + left. reflexivity.
    + constructor. constructor.
Defined.

(** C8, as first stated, fails: with no reader passed in and a store
    that cannot be reached, an illegal mode does not raise the
    [ValueError] on the mode, and a legal mode does not give a
    provider; in both cases the outcome is the exception of the reader's
    constructor. *)
Lemma provider_init_unreachable_store_counterexample :
  HazardDataProvider_init example_reader_unavailable
    (as_source_path get_source_path_osc_chronic_heat) None None (Some "cubic")
    ≠ Raise (ValueError "interpolation must be 'floor' or 'linear'") ∧
  ¬ (∃ self,
       HazardDataProvider_init example_reader_unavailable
         (as_source_path get_source_path_osc_chronic_heat) None None
         (Some "floor") = Ok self) ∧
  AcuteHazardDataProvider_init example_reader_unavailable
    (as_source_path get_source_path_osc_chronic_heat) None None (Some "floor")
    = Raise (OtherError "ConnectionError") ∧
  ChronicHazardDataProvider_init example_reader_unavailable
    (as_source_path get_source_path_osc_chronic_heat) None None (Some "linear")
    = Raise (OtherError "ConnectionError").
Proof.
  split; [discriminate|]. split; [by intros [self [=]]|]. split; reflexivity.
Qed.

Lemma get_parameters_is_column0_witness :
  get_intensity_curves example_get_curves example_provider [12; 13] [50; 51]
    "mean_work_loss/high" "ssp585" 2100
    = Ok ({| nrows := 2; ncols := 3;
             item := λ i j, 10 * Z.of_nat i + Z.of_nat j |}, [5; 50; 500]) ∧
  ∃ parameters,
    get_parameters example_get_curves example_provider [12; 13] [50; 51]
      "mean_work_loss/high" "ssp585" 2100 = Ok parameters ∧
    length parameters = 2%nat ∧
    ∀ i, (i < 2)%nat → parameters !! i = Some (10 * Z.of_nat i + Z.of_nat 0).
Proof.
  exact (get_parameters_is_column0 example_reader_new example_get_curves
           (as_source_path get_source_path_osc_chronic_heat)
           None (Some tt) (Some "linear") example_provider example_provider
           [12; 13] [50; 51] "mean_work_loss/high" "ssp585" 2100
           (Some "chronic_heat/osc/v1/mean_work_loss_high_ssp585_2100")
           {| nrows := 2; ncols := 3;
              item := λ i j, 10 * Z.of_nat i + Z.of_nat j |}
           [5; 50; 500]
           eq_refl eq_refl eq_refl eq_refl (Nat.lt_0_succ 2)).
Defined.

Example get_parameters_example :
  get_parameters example_get_curves example_provider [12; 13] [50; 51]
    "mean_work_loss/high" "ssp585" 2100 = Ok [0; 10].
Proof. reflexivity. Qed.

(** An array without columns has no column 0: [[:, 0]] raises. *)
Example column0_of_no_columns :
  column0 {| nrows := 2; ncols := 0; item := λ _ _, 0 |} = Raise IndexError.
Proof. reflexivity. Qed.

(** The resolver's error reaches the caller before the reader is asked. *)
Example get_parameters_invalid_model :
  get_parameters example_get_curves example_provider [12; 13] [50; 51]
    "mean_work_loss/extreme" "ssp585" 2100 = Raise AssertionError.
Proof. reflexivity. Qed.

(** ** The spec's generic resolver scenarios, end to end *)

Example generic_resolver_examples :
  ∃ resolver,
    get_source_path_generic example_hazard_class format_fields example_inventory
      "RiverineInundation" None = Ok resolver ∧
    resolver "modelA" "ssp245" 2050
      = Ok (Some "inundation/generic/v1/modelA_rcp4p5_2050") ∧
    resolver "modelA" "ssp370" 2050
      = Raise (ValueError "unexpected scenario ssp370") ∧
    resolver "modelB" "ssp245" 2050
      = Ok (Some "chronic_heat/generic/v1/modelB_ssp245_2050") ∧
    resolver "modelB" "ssp370" 2050
      = Ok (Some "chronic_heat/generic/v1/modelB_ssp370_2050") ∧
    resolver "modelC" "ssp245" 2050 = Ok None.
Proof.
  eexists. split.
  - unfold get_source_path_generic. rewrite example_resources_dict_built.
    reflexivity.
  - repeat split.
Qed.

(** * Further properties of the module *)

(** ** Separators and decimal numerals *)

Lemma contains_char_app (c : ascii) (a b : string) :
  contains_char c (a +:+ b) = (contains_char c a || contains_char c b)%bool.
Proof.
  induction a as [|ch a IH]; [done|].
  rewrite str_append_cons. simpl. rewrite IH. by destruct (Ascii.eqb ch c).
Qed.

(** Two strings cut at their first [c] are equal only piece by piece. *)
Lemma cut_at_first (c : ascii) (a b x y : string) :
  contains_char c a = false → contains_char c b = false →
  a +:+ String c x = b +:+ String c y → a = b ∧ x = y.
Proof.
  revert b. induction a as [|ch a IH]; intros [|ch' b]; simpl;
    rewrite ?str_append_cons.
  - intros _ _ [= ->]. done.
  - intros _ Hb [= <- _]. by rewrite Ascii.eqb_refl in Hb.
  - intros Ha _ [= -> _]. by rewrite Ascii.eqb_refl in Ha.
  - intros [_ Ha]%orb_false_elim [_ Hb]%orb_false_elim [= -> Heq].
    destruct (IH b Ha Hb Heq) as [-> ->]. done.
Qed.

(** Two strings cut at their last [c] are equal only piece by piece. *)
Lemma cut_at_last (c : ascii) (a b x y : string) :
  contains_char c x = false → contains_char c y = false →
  a +:+ String c x = b +:+ String c y → a = b ∧ x = y.
Proof.
  intros Hx Hy. revert b. induction a as [|ch a IH]; intros [|ch' b];
    rewrite ?str_append_cons.
  - by intros [= ->].
  - intros [= _ ->]. rewrite contains_char_app in Hx. simpl in Hx.
    rewrite Ascii.eqb_refl in Hx. by destruct (contains_char c b).
  - intros [= _ <-]. rewrite contains_char_app in Hy. simpl in Hy.
    rewrite Ascii.eqb_refl in Hy. by destruct (contains_char c a).
  - intros [= -> Heq]. destruct (IH b Heq) as [-> ->]. done.
Qed.

Lemma to_int_printable (n : Z) :
  Z.to_int n ≠ Decimal.Pos Decimal.Nil ∧ Z.to_int n ≠ Decimal.Neg Decimal.Nil.
Proof.
  destruct n as [|p|p]; simpl; split; try done.
  all: intros [= Hnil]; by apply DecimalPos.Unsigned.to_uint_nonnil in Hnil.
Qed.

(** [int(str(n)) == n] *)
Lemma str_int_parse (n : Z) :
  Z.of_int <$> DecimalString.NilZero.int_of_string (str_int n) = Some n.
Proof.
  unfold str_int. destruct (to_int_printable n) as [Hpos Hneg].
  rewrite DecimalString.NilZero.isi by done. simpl. by rewrite DecimalZ.of_to.
Qed.

Lemma str_int_inj (m n : Z) : str_int m = str_int n → m = n.
Proof.
  intros Heq. pose proof (str_int_parse m) as Hm. rewrite Heq, str_int_parse in Hm.
  by injection Hm.
Qed.

Lemma digits_no_underscore (d : Decimal.uint) :
  contains_char "_" (DecimalString.NilEmpty.string_of_uint d) = false.
Proof. induction d; simpl; done. Qed.

Lemma str_int_no_underscore (n : Z) : contains_char "_" (str_int n) = false.
Proof.
  unfold str_int, DecimalString.NilZero.string_of_int,
    DecimalString.NilZero.string_of_uint.
  destruct (Z.to_int n) as [d|d]; destruct d; simpl;
    try done; apply digits_no_underscore.
Qed.

(** ** Scenario normaliser *)

Lemma cmip6_ok_range (scenario rcp : string) :
  cmip6_scenario_to_rcp scenario = Ok rcp →
  rcp ∈ ["rcp2p6"; "rcp4p5"; "rcp8p5"; "historical"].
Proof.
  unfold cmip6_scenario_to_rcp.
  destruct (String.eqb scenario "ssp126"); [intros [= <-]; by constructor|].
  destruct (String.eqb scenario "ssp245"); [intros [= <-]; by do 2 constructor|].
  destruct (String.eqb scenario "ssp585"); [intros [= <-]; by do 3 constructor|].
  destruct (str_in scenario _) eqn:Hin; simpl; [|intros [=]].
  intros [= <-]. by apply str_in_true.
Qed.

Lemma cmip6_rcp_fixed (rcp : string) :
  rcp ∈ ["rcp2p6"; "rcp4p5"; "rcp8p5"; "historical"] →
  cmip6_scenario_to_rcp rcp = Ok rcp.
Proof. intros Hin. elem_cases Hin by reflexivity. Qed.

(** X1. Whatever [cmip6_scenario_to_rcp] returns is one of rcp2p6,
    rcp4p5, rcp8p5, historical, and normalising it again changes
    nothing. *)
Theorem cmip6_scenario_to_rcp_idempotent (scenario rcp : string) :
  cmip6_scenario_to_rcp scenario = Ok rcp →
  rcp ∈ ["rcp2p6"; "rcp4p5"; "rcp8p5"; "historical"] ∧
  cmip6_scenario_to_rcp rcp = Ok rcp.
Proof.
  intros Hok. split; [by eapply cmip6_ok_range|].
  apply cmip6_rcp_fixed. by eapply cmip6_ok_range.
Qed.

Lemma cmip6_scenario_to_rcp_idempotent_witness :
  "rcp8p5" ∈ ["rcp2p6"; "rcp4p5"; "rcp8p5"; "historical"] ∧
  cmip6_scenario_to_rcp "rcp8p5" = Ok "rcp8p5".
Proof. exact (cmip6_scenario_to_rcp_idempotent "ssp585" "rcp8p5" eq_refl). Defined.

(** ** World Resource Aqueduct resolvers *)

Lemma str_append_inj_l (a x y : string) : a +:+ x = a +:+ y → x = y.
Proof.
  induction a as [|ch a IH]; [done|]. rewrite !str_append_cons. intros [= Heq]. auto.
Qed.

Lemma subsidence_set_elem (sub : string) :
  sub ∈ _subsidence_set ↔ sub ∈ ["wtsub"; "nosub"].
Proof.
  unfold _subsidence_set.
  rewrite elem_of_union, !elem_of_singleton, !elem_of_cons, elem_of_nil. tauto.
Qed.

Lemma percentiles_map_lookup (perc suffix : string) :
  _percentiles_map !! perc = Some suffix ↔
  (perc, suffix) ∈ [("95", "0"); ("5", "0_perc_05"); ("50", "0_perc_50")].
Proof.
  unfold _percentiles_map.
  rewrite !lookup_insert_Some, lookup_singleton_Some, !elem_of_cons, elem_of_nil.
  split.
  - intros [[<- <-]|[? [[<- <-]|[? [<- <-]]]]]; auto.
  - intros [[= -> ->]|[[= -> ->]|[[= -> ->]|[]]]]; auto 10.
Qed.

Lemma percentiles_map_miss (perc : string) :
  perc ∉ ["95"; "5"; "50"] → _percentiles_map !! perc = None.
Proof.
  intros Hnot. destruct (_percentiles_map !! perc) as [suffix|] eqn:Hlook; [|done].
  destruct Hnot. apply percentiles_map_lookup in Hlook.
  repeat (apply elem_of_cons in Hlook as [[= -> ->]|Hlook];
          [by repeat constructor|]).
  by apply elem_of_nil in Hlook.
Qed.

(** The coastal resolver, read along the components of the model. *)
Lemma wri_coastal_unfold (model scenario sub : string) (rest : list string)
    (year : Z) :
  split "/" model = sub :: rest →
  get_source_path_wri_coastal_inundation model scenario year
    = if bool_decide (sub ∈ _subsidence_set) then
        rcp ← cmip6_scenario_to_rcp scenario;
        suffix ← getitem _percentiles_map (default "95" (head rest));
        Ok ("inundation/wri/v2/inuncoast_" +:+ rcp +:+ "_" +:+ sub +:+ "_"
              +:+ str_int year +:+ "_" +:+ suffix)
      else Raise (ValueError
        "expected model input of the form {subsidence/percentile}, e.g. wtsub/95, nosub/5, wtsub/50").
Proof.
  intros Hsplit. unfold get_source_path_wri_coastal_inundation.
  rewrite Hsplit. simpl. destruct (bool_decide _); [|done]. simpl.
  by destruct rest.
Qed.

Lemma wri_coastal_ok_inv (model scenario p : string) (year : Z) :
  get_source_path_wri_coastal_inundation model scenario year = Ok p →
  ∃ sub rest rcp suffix,
    split "/" model = sub :: rest ∧
    sub ∈ ["wtsub"; "nosub"] ∧
    cmip6_scenario_to_rcp scenario = Ok rcp ∧
    _percentiles_map !! default "95" (head rest) = Some suffix ∧
    p = "inundation/wri/v2/inuncoast_" +:+ rcp +:+ "_" +:+ sub +:+ "_"
          +:+ str_int year +:+ "_" +:+ suffix.
Proof.
  destruct (split "/" model) as [|sub rest] eqn:Hsplit;
    [by destruct (split_nonempty "/" model)|].
  rewrite (wri_coastal_unfold _ _ _ _ _ Hsplit).
  case_bool_decide as Hsub; [|intros [=]].
  destruct (cmip6_scenario_to_rcp scenario) as [rcp|]; simpl; [|intros [=]].
  unfold getitem.
  destruct (_percentiles_map !! _) as [suffix|] eqn:Hperc; simpl; [|intros [=]].
  intros [= <-]. exists sub, rest, rcp, suffix.
  by rewrite <-subsidence_set_elem.
Qed.

Lemma wri_riverine_ok_inv (model scenario p : string) (year : Z) :
  get_source_path_wri_riverine_inundation model scenario year = Ok p →
  ∃ rcp, cmip6_scenario_to_rcp scenario = Ok rcp ∧
         p = "inundation/wri/v2/inunriver_" +:+ rcp +:+ "_" +:+ model
               +:+ "_" +:+ str_int year.
Proof.
  unfold get_source_path_wri_riverine_inundation.
  destruct (cmip6_scenario_to_rcp scenario) as [rcp|]; simpl; [|intros [=]].
  intros [= <-]. by exists rcp.
Qed.

(** X2. A CMIP6 id and the RCP id it normalises to name the same
    dataset: the coastal and the riverine resolver return for the
    scenario exactly what they return for its normal form. *)
Theorem wri_resolvers_normalise_scenario (model scenario rcp : string) (year : Z) :
  cmip6_scenario_to_rcp scenario = Ok rcp →
  get_source_path_wri_coastal_inundation model scenario year
    = get_source_path_wri_coastal_inundation model rcp year ∧
  get_source_path_wri_riverine_inundation model scenario year
    = get_source_path_wri_riverine_inundation model rcp year.
Proof.
  intros Hok.
  assert (cmip6_scenario_to_rcp rcp = Ok rcp) as Hfix
    by (apply cmip6_rcp_fixed; by eapply cmip6_ok_range).
  unfold get_source_path_wri_coastal_inundation,
    get_source_path_wri_riverine_inundation.
  by rewrite Hok, Hfix.
Qed.

Lemma wri_resolvers_normalise_scenario_witness :
  get_source_path_wri_coastal_inundation "nosub/50" "ssp126" 2030
    = get_source_path_wri_coastal_inundation "nosub/50" "rcp2p6" 2030 ∧
  get_source_path_wri_riverine_inundation "000000000WATCH" "ssp126" 2030
    = get_source_path_wri_riverine_inundation "000000000WATCH" "rcp2p6" 2030.
Proof.
  split.
  - exact (proj1 (wri_resolvers_normalise_scenario "nosub/50" "ssp126" "rcp2p6"
                    2030 eq_refl)).
  - exact (proj2 (wri_resolvers_normalise_scenario "000000000WATCH" "ssp126"
                    "rcp2p6" 2030 eq_refl)).
Defined.

(** X3. The order of the coastal resolver's checks. A first component
    other than wtsub and nosub raises the [ValueError] on the model,
    whatever the scenario and the percentile; with a good first
    component a scenario that does not normalise raises the normaliser's
    exception, whatever the percentile; only then a percentile other
    than 95, 5, 50 (the second component, or 95 when there is none)
    raises [KeyError] with the percentile as its key. *)
Theorem wri_coastal_error_order (model scenario sub : string)
    (rest : list string) (year : Z) :
  split "/" model = sub :: rest →
  (sub ∉ ["wtsub"; "nosub"] →
     get_source_path_wri_coastal_inundation model scenario year
       = Raise (ValueError
           "expected model input of the form {subsidence/percentile}, e.g. wtsub/95, nosub/5, wtsub/50")) ∧
  (sub ∈ ["wtsub"; "nosub"] →
     ∀ e, cmip6_scenario_to_rcp scenario = Raise e →
          get_source_path_wri_coastal_inundation model scenario year = Raise e) ∧
  (sub ∈ ["wtsub"; "nosub"] →
     ∀ rcp, cmip6_scenario_to_rcp scenario = Ok rcp →
            default "95" (head rest) ∉ ["95"; "5"; "50"] →
            get_source_path_wri_coastal_inundation model scenario year
              = Raise (KeyError (default "95" (head rest)))).
Proof.
  intros Hsplit. rewrite (wri_coastal_unfold _ _ _ _ _ Hsplit).
  split; [|split].
  - intros Hsub. rewrite <-subsidence_set_elem in Hsub. by rewrite bool_decide_false.
  - intros Hsub e ->. rewrite <-subsidence_set_elem in Hsub.
    by rewrite bool_decide_true.
  - intros Hsub rcp -> Hperc. rewrite <-subsidence_set_elem in Hsub.
    rewrite bool_decide_true by done. simpl. unfold getitem.
    by rewrite percentiles_map_miss.
Qed.

Lemma wri_coastal_error_order_witness :
  get_source_path_wri_coastal_inundation "sub/7" "ssp370" 2050
    = Raise (ValueError
        "expected model input of the form {subsidence/percentile}, e.g. wtsub/95, nosub/5, wtsub/50") ∧
  get_source_path_wri_coastal_inundation "wtsub/7" "ssp370" 2050
    = Raise (ValueError "unexpected scenario ssp370") ∧
  get_source_path_wri_coastal_inundation "wtsub/" "ssp245" 2050
    = Raise (KeyError "").
Proof.
  assert (Hsub : "wtsub" ∈ ["wtsub"; "nosub"]) by constructor.
  split; [|split].
  - refine (proj1 (wri_coastal_error_order "sub/7" "ssp370" "sub" ["7"] 2050
                     eq_refl) _).
    repeat (apply not_elem_of_cons; split; [discriminate|]). apply not_elem_of_nil.
  - exact (proj1 (proj2 (wri_coastal_error_order "wtsub/7" "ssp370" "wtsub" ["7"]
                           2050 eq_refl)) Hsub _ eq_refl).
  - refine (proj2 (proj2 (wri_coastal_error_order "wtsub/" "ssp245" "wtsub" [""]
                            2050 eq_refl)) Hsub "rcp4p5" eq_refl _).
    repeat (apply not_elem_of_cons; split; [discriminate|]). apply not_elem_of_nil.
Defined.

Lemma cut_first_underscore (a b x y : string) :
  contains_char "_" a = false → contains_char "_" b = false →
  a +:+ "_" +:+ x = b +:+ "_" +:+ y → a = b ∧ x = y.
Proof. exact (cut_at_first "_" a b x y). Qed.

Lemma cut_last_underscore (a b x y : string) :
  contains_char "_" x = false → contains_char "_" y = false →
  a +:+ "_" +:+ x = b +:+ "_" +:+ y → a = b ∧ x = y.
Proof. exact (cut_at_last "_" a b x y). Qed.

Lemma rcp_no_underscore (rcp : string) :
  rcp ∈ ["rcp2p6"; "rcp4p5"; "rcp8p5"; "historical"] →
  contains_char "_" rcp = false.
Proof. intros Hin. elem_cases Hin by reflexivity. Qed.

Lemma subsidence_no_underscore (sub : string) :
  sub ∈ ["wtsub"; "nosub"] → contains_char "_" sub = false.
Proof. intros Hin. elem_cases Hin by reflexivity. Qed.

(** X4. Two coastal requests that resolve to the same path agree on the
    year and on the normalised scenario, and their models are
    interchangeable: they resolve alike for every scenario and year. *)
Theorem coastal_paths_injective (model1 model2 scenario1 scenario2 p : string)
    (year1 year2 : Z) :
  get_source_path_wri_coastal_inundation model1 scenario1 year1 = Ok p →
  get_source_path_wri_coastal_inundation model2 scenario2 year2 = Ok p →
  year1 = year2 ∧
  cmip6_scenario_to_rcp scenario1 = cmip6_scenario_to_rcp scenario2 ∧
  ∀ scenario year,
    get_source_path_wri_coastal_inundation model1 scenario year
      = get_source_path_wri_coastal_inundation model2 scenario year.
Proof.
  intros (sub1 & rest1 & rcp1 & suffix1 & Hsplit1 & Hsub1 & Hrcp1 & Hperc1 & ->)
    %wri_coastal_ok_inv
    (sub2 & rest2 & rcp2 & suffix2 & Hsplit2 & Hsub2 & Hrcp2 & Hperc2 & Heq)
    %wri_coastal_ok_inv.
  apply str_append_inj_l in Heq.
  apply cut_first_underscore in Heq as [-> Heq];
    [|eapply rcp_no_underscore, cmip6_ok_range; eassumption..].
  apply cut_first_underscore in Heq as [-> Heq];
    [|by apply subsidence_no_underscore..].
  apply cut_first_underscore in Heq as [Hyear ->];
    [|apply str_int_no_underscore..].
  apply str_int_inj in Hyear as ->.
  split; [done|]. split; [by rewrite Hrcp1, Hrcp2|].
  intros scenario year.
  rewrite (wri_coastal_unfold _ _ _ _ _ Hsplit1), (wri_coastal_unfold _ _ _ _ _ Hsplit2).
  unfold getitem. by rewrite Hperc1, Hperc2.
Qed.

Lemma coastal_paths_injective_witness :
  2080 = 2080 ∧
  cmip6_scenario_to_rcp "ssp585" = cmip6_scenario_to_rcp "rcp8p5" ∧
  ∀ scenario year,
    get_source_path_wri_coastal_inundation "wtsub" scenario year
      = get_source_path_wri_coastal_inundation "wtsub/95/p" scenario year.
Proof.
  exact (coastal_paths_injective "wtsub" "wtsub/95/p" "ssp585" "rcp8p5"
           "inundation/wri/v2/inuncoast_rcp8p5_wtsub_2080_0" 2080 2080
           eq_refl eq_refl).
Defined.

(** X5. Two riverine requests that resolve to the same path have the
    same model string, the same year and the same normalised scenario:
    the path keeps all three apart, although the model is not
    validated. *)
Theorem riverine_paths_injective (model1 model2 scenario1 scenario2 p : string)
    (year1 year2 : Z) :
  get_source_path_wri_riverine_inundation model1 scenario1 year1 = Ok p →
  get_source_path_wri_riverine_inundation model2 scenario2 year2 = Ok p →
  model1 = model2 ∧ year1 = year2 ∧
  cmip6_scenario_to_rcp scenario1 = cmip6_scenario_to_rcp scenario2.
Proof.
  intros (rcp1 & Hrcp1 & ->)%wri_riverine_ok_inv
    (rcp2 & Hrcp2 & Heq)%wri_riverine_ok_inv.
  apply str_append_inj_l in Heq.
  apply cut_first_underscore in Heq as [-> Heq];
    [|eapply rcp_no_underscore, cmip6_ok_range; eassumption..].
  apply cut_last_underscore in Heq as [-> Hyear];
    [|apply str_int_no_underscore..].
  apply str_int_inj in Hyear as ->.
  by rewrite Hrcp1, Hrcp2.
Qed.

Lemma riverine_paths_injective_witness :
  "0000GFDL_ESM2M" = "0000GFDL_ESM2M" ∧ 2030 = 2030 ∧
  cmip6_scenario_to_rcp "ssp245" = cmip6_scenario_to_rcp "rcp4p5".
Proof.
  exact (riverine_paths_injective "0000GFDL_ESM2M" "0000GFDL_ESM2M"
           "ssp245" "rcp4p5"
           "inundation/wri/v2/inunriver_rcp4p5_0000GFDL_ESM2M_2030" 2030 2030
           eq_refl eq_refl).
Defined.

(** ** OS-C chronic heat resolver *)

Lemma osc_degree_days_ok (model scenario l0 l1 : string) (more : list string)
    (year : Z) :
  split "/" model = "mean_degree_days" :: l0 :: l1 :: more →
  l0 ∈ ["above"; "below"] → l1 ∈ ["18c"; "32c"] →
  get_source_path_osc_chronic_heat model scenario year
    = Ok ("chronic_heat/osc/v1/mean_degree_days_" +:+ l0 +:+ "_" +:+ l1 +:+ "_"
            +:+ scenario +:+ "_" +:+ str_int year).
Proof.
  intros Hsplit Hl0%str_in_true Hl1%str_in_true.
  unfold get_source_path_osc_chronic_heat. rewrite Hsplit. simpl.
  by rewrite Hl0, Hl1.
Qed.

Lemma osc_work_loss_ok (model scenario l0 : string) (more : list string) (year : Z) :
  split "/" model = "mean_work_loss" :: l0 :: more →
  l0 ∈ ["low"; "medium"; "high"] →
  get_source_path_osc_chronic_heat model scenario year
    = Ok ("chronic_heat/osc/v1/mean_work_loss_" +:+ l0 +:+ "_" +:+ scenario
            +:+ "_" +:+ str_int year).
Proof.
  intros Hsplit Hl0%str_in_true.
  unfold get_source_path_osc_chronic_heat. rewrite Hsplit. simpl.
  by rewrite Hl0.
Qed.

Lemma osc_ok_inv (model scenario p : string) (year : Z) :
  get_source_path_osc_chronic_heat model scenario year = Ok p →
  (∃ l0 l1 more,
     split "/" model = "mean_degree_days" :: l0 :: l1 :: more ∧
     l0 ∈ ["above"; "below"] ∧ l1 ∈ ["18c"; "32c"] ∧
     p = "chronic_heat/osc/v1/mean_degree_days_" +:+ l0 +:+ "_" +:+ l1 +:+ "_"
           +:+ scenario +:+ "_" +:+ str_int year) ∨
  (∃ l0 more,
     split "/" model = "mean_work_loss" :: l0 :: more ∧
     l0 ∈ ["low"; "medium"; "high"] ∧
     p = "chronic_heat/osc/v1/mean_work_loss_" +:+ l0 +:+ "_" +:+ scenario
           +:+ "_" +:+ str_int year).
Proof.
  unfold get_source_path_osc_chronic_heat.
  destruct (split "/" model) as [|type levels]; [intros [=]|].
  destruct (String.eqb_spec type "mean_degree_days") as [->|_].
  - destruct levels as [|l0 [|l1 more]]; simpl.
    + intros [=].
    + destruct (str_in l0 _); simpl; intros [=].
    + destruct (str_in l0 _) eqn:Hl0; simpl; [|intros [=]].
      destruct (str_in l1 _) eqn:Hl1; simpl; [|intros [=]].
      intros [= <-]. left. exists l0, l1, more.
      by rewrite <-!str_in_true.
  - destruct (String.eqb_spec type "mean_work_loss") as [->|_]; [|intros [=]].
    destruct levels as [|l0 more]; simpl; [intros [=]|].
    destruct (str_in l0 _) eqn:Hl0; simpl; [|intros [=]].
    intros [= <-]. right. exists l0, more. by rewrite <-!str_in_true.
Qed.

(** X6. Which models the OS-C resolver accepts, and that it reads no
    more than it needs: a model whose components begin with
    mean_degree_days, a level above or below and a threshold 18c or 32c
    gives chronic_heat/osc/v1/mean_degree_days_{l0}_{l1}_{scenario}_{year};
    one that begins with mean_work_loss and low, medium or high gives
    chronic_heat/osc/v1/mean_work_loss_{l0}_{scenario}_{year}; in both
    cases for every scenario string and whatever components follow. *)
Theorem osc_chronic_heat_accepts (model scenario l0 : string) (year : Z) :
  (∀ l1 more,
     split "/" model = "mean_degree_days" :: l0 :: l1 :: more →
     l0 ∈ ["above"; "below"] → l1 ∈ ["18c"; "32c"] →
     get_source_path_osc_chronic_heat model scenario year
       = Ok ("chronic_heat/osc/v1/mean_degree_days_" +:+ l0 +:+ "_" +:+ l1 +:+ "_"
               +:+ scenario +:+ "_" +:+ str_int year)) ∧
  (∀ more,
     split "/" model = "mean_work_loss" :: l0 :: more →
     l0 ∈ ["low"; "medium"; "high"] →
     get_source_path_osc_chronic_heat model scenario year
       = Ok ("chronic_heat/osc/v1/mean_work_loss_" +:+ l0 +:+ "_" +:+ scenario
               +:+ "_" +:+ str_int year)).
Proof.
  split.
  - intros l1 more. apply osc_degree_days_ok.
  - intros more. apply osc_work_loss_ok.
Qed.

Lemma osc_chronic_heat_accepts_witness :
  get_source_path_osc_chronic_heat "mean_degree_days/below/18c/x/y" "any scenario" 2040
    = Ok "chronic_heat/osc/v1/mean_degree_days_below_18c_any scenario_2040" ∧
  get_source_path_osc_chronic_heat "mean_work_loss/medium/" "ssp245" 2040
    = Ok "chronic_heat/osc/v1/mean_work_loss_medium_ssp245_2040".
Proof.
  split.
  - refine (proj1 (osc_chronic_heat_accepts "mean_degree_days/below/18c/x/y"
                     "any scenario" "below" 2040) "18c" ["x"; "y"] eq_refl _ _).
    + constructor. constructor.
    + constructor.
  - refine (proj2 (osc_chronic_heat_accepts "mean_work_loss/medium/"
                     "ssp245" "medium" 2040) [""] eq_refl _).
    constructor. constructor.
Defined.

Lemma osc_level_no_underscore (level : string) :
  level ∈ ["above"; "below"; "18c"; "32c"; "low"; "medium"; "high"] →
  contains_char "_" level = false.
Proof. intros Hin. elem_cases Hin by reflexivity. Qed.

(** X7. Two OS-C requests that resolve to the same path carry the same
    scenario string and the same year, and their models are
    interchangeable: they resolve alike for every scenario and year. *)
Theorem osc_paths_injective
    (model1 model2 scenario1 scenario2 p : string) (year1 year2 : Z) :
  get_source_path_osc_chronic_heat model1 scenario1 year1 = Ok p →
  get_source_path_osc_chronic_heat model2 scenario2 year2 = Ok p →
  scenario1 = scenario2 ∧ year1 = year2 ∧
  ∀ scenario year,
    get_source_path_osc_chronic_heat model1 scenario year
      = get_source_path_osc_chronic_heat model2 scenario year.
Proof.
  intros [(l0 & l1 & more & Hsplit1 & Hl0 & Hl1 & ->)
         |(l0 & more & Hsplit1 & Hl0 & ->)]%osc_ok_inv
         [(l0' & l1' & more' & Hsplit2 & Hl0' & Hl1' & Heq)
         |(l0' & more' & Hsplit2 & Hl0' & Heq)]%osc_ok_inv.
  - apply str_append_inj_l in Heq.
    apply cut_first_underscore in Heq as [<- Heq];
      [|apply osc_level_no_underscore; set_unfold; tauto..].
    apply cut_first_underscore in Heq as [<- Heq];
      [|apply osc_level_no_underscore; set_unfold; tauto..].
    apply cut_last_underscore in Heq as [<- Hyear];
      [|apply str_int_no_underscore..].
    apply str_int_inj in Hyear as <-. split; [done|]. split; [done|].
    intros scenario year.
    by rewrite (osc_degree_days_ok _ _ _ _ _ _ Hsplit1),
      (osc_degree_days_ok _ _ _ _ _ _ Hsplit2).
  - rewrite !str_append_cons in Heq. discriminate Heq.
  - rewrite !str_append_cons in Heq. discriminate Heq.
  - apply str_append_inj_l in Heq.
    apply cut_first_underscore in Heq as [<- Heq];
      [|apply osc_level_no_underscore; set_unfold; tauto..].
    apply cut_last_underscore in Heq as [<- Hyear];
      [|apply str_int_no_underscore..].
    apply str_int_inj in Hyear as <-. split; [done|]. split; [done|].
    intros scenario year.
    by rewrite (osc_work_loss_ok _ _ _ _ _ Hsplit1),
      (osc_work_loss_ok _ _ _ _ _ Hsplit2).
Qed.

Lemma osc_paths_injective_witness :
  "ssp_585" = "ssp_585" ∧ 2100 = 2100 ∧
  ∀ scenario year,
    get_source_path_osc_chronic_heat "mean_work_loss/high" scenario year
      = get_source_path_osc_chronic_heat "mean_work_loss/high/extra" scenario year.
Proof.
  exact (osc_paths_injective "mean_work_loss/high"
           "mean_work_loss/high/extra" "ssp_585" "ssp_585"
           "chronic_heat/osc/v1/mean_work_loss_high_ssp_585_2100" 2100 2100
           eq_refl eq_refl).
Defined.

(** X8. The three families never share a path: what the coastal
    resolver returns is returned neither by the riverine nor by the OS-C
    resolver, and what the riverine resolver returns is not returned by
    the OS-C resolver, whatever their arguments. *)
Theorem family_paths_disjoint
    (model1 model2 model3 scenario1 scenario2 scenario3 p : string)
    (year1 year2 year3 : Z) :
  (get_source_path_wri_coastal_inundation model1 scenario1 year1 = Ok p →
     get_source_path_wri_riverine_inundation model2 scenario2 year2 ≠ Ok p ∧
     get_source_path_osc_chronic_heat model3 scenario3 year3 ≠ Ok p) ∧
  (get_source_path_wri_riverine_inundation model2 scenario2 year2 = Ok p →
     get_source_path_osc_chronic_heat model3 scenario3 year3 ≠ Ok p).
Proof.
  split.
  - intros (sub & rest & rcp1 & suffix & _ & _ & _ & _ & ->)%wri_coastal_ok_inv.
    split.
    + intros (rcp2 & _ & Heq)%wri_riverine_ok_inv.
      rewrite !str_append_cons in Heq. discriminate Heq.
    + intros [(l0 & l1 & more & _ & _ & _ & Heq)|(l0 & more & _ & _ & Heq)]
        %osc_ok_inv; rewrite !str_append_cons in Heq; discriminate Heq.
  - intros (rcp2 & _ & ->)%wri_riverine_ok_inv.
    intros [(l0 & l1 & more & _ & _ & _ & Heq)|(l0 & more & _ & _ & Heq)]
      %osc_ok_inv; rewrite !str_append_cons in Heq; discriminate Heq.
Qed.

Lemma family_paths_disjoint_witness :
  (get_source_path_wri_riverine_inundation "nosub_2050" "rcp8p5" 0
     ≠ Ok "inundation/wri/v2/inuncoast_rcp8p5_nosub_2050_0" ∧
   get_source_path_osc_chronic_heat "mean_work_loss/low" "rcp8p5" 2050
     ≠ Ok "inundation/wri/v2/inuncoast_rcp8p5_nosub_2050_0") ∧
  get_source_path_osc_chronic_heat "mean_work_loss/low" "rcp8p5" 2050
    ≠ Ok "inundation/wri/v2/inunriver_rcp8p5_00000NorESM1-M_2050".
Proof.
  split.
  - exact (proj1 (family_paths_disjoint "nosub" "nosub_2050" "mean_work_loss/low"
                    "rcp8p5" "rcp8p5" "rcp8p5"
                    "inundation/wri/v2/inuncoast_rcp8p5_nosub_2050_0"
                    2050 0 2050) eq_refl).
  - exact (proj2 (family_paths_disjoint "nosub" "00000NorESM1-M"
                    "mean_work_loss/low" "rcp8p5" "rcp8p5" "rcp8p5"
                    "inundation/wri/v2/inunriver_rcp8p5_00000NorESM1-M_2050"
                    2050 2050 2050) eq_refl).
Defined.

(** ** Generic resolver *)

(** Building the mapping raises nothing but [IndexError], and raises
    it as soon as some id of the hazard type has an empty resource list. *)
Lemma resources_dict_failure (inventory : Inventory) (hazard_type : string) :
  (∀ e, resources_dict inventory hazard_type = Raise e → e = IndexError) ∧
  ((∃ id, inventory !! (hazard_type, id) = Some []) →
   raises (resources_dict inventory hazard_type)).
Proof.
  unfold resources_dict, raises.
  apply (map_fold_weak_ind (λ r (m : Inventory),
    (∀ e, r = Raise e → e = IndexError) ∧
    ((∃ id, m !! (hazard_type, id) = Some []) → ∃ e, r = Raise e))).
  - split; [done|]. intros [id Hid]. by rewrite lookup_empty in Hid.
  - intros [htype id'] resources m r Hfresh [IHe IHbad]. split.
    + intros e. destruct r as [d|e']; simpl; [|intros [= <-]; by apply IHe].
      destruct (String.eqb htype hazard_type); [|done].
      destruct resources; simpl; [by intros [= <-]|done].
    + intros [id Hid]. destruct r as [d|e']; simpl; [|by eexists].
      destruct (decide ((htype, id') = (hazard_type, id))) as [[= -> ->]|Hne].
      * rewrite lookup_insert_eq in Hid. injection Hid as ->.
        rewrite String.eqb_refl. by eexists.
      * rewrite lookup_insert_ne in Hid by done.
        destruct IHbad as [e [=]]. by exists id.
Qed.

Section GenericExtras.
Variable hazard_class : string → result string.
Variable str_format : string → string → string → Z → result string.

(** What the resolver answers for a model the inventory registers under
    the hazard type. *)
Lemma generic_lookup_hit (inventory : Inventory) (hazard_type : string)
    (embedded : option (gmap string SourcePath)) (resolver : SourcePath)
    (model scenario : string) (year : Z)
    (resource : HazardResource) (others : list HazardResource) :
  get_source_path_generic hazard_class str_format inventory hazard_type embedded
    = Ok resolver →
  inventory !! (hazard_type, model) = Some (resource :: others) →
  resolver model scenario year
    = first ← index (scenarios resource) 0;
      proxy_scenario ← (if startswith (Scenario.id first) "rcp"
                        then cmip6_scenario_to_rcp scenario else Ok scenario);
      name ← str_format (array_name resource) model proxy_scenario year;
      Ok (Some (PosixPath_str (path resource) name)).
Proof.
  intros (d & Hd & ->)%get_source_path_generic_inv Hinv.
  pose proof (resources_dict_lookup _ _ _ Hd model) as Hmodel.
  rewrite Hinv in Hmodel. simpl in Hmodel.
  unfold get_source_path. by rewrite Hmodel.
Qed.

Lemma generic_lookup_miss (inventory : Inventory) (hazard_type : string)
    (embedded : option (gmap string SourcePath)) (resolver : SourcePath)
    (model : string) :
  get_source_path_generic hazard_class str_format inventory hazard_type embedded
    = Ok resolver →
  inventory !! (hazard_type, model) = None →
  ∃ d, d !! model = None ∧
       resolver = get_source_path hazard_class str_format d hazard_type embedded.
Proof.
  intros (d & Hd & ->)%get_source_path_generic_inv Hinv.
  exists d. split; [|done].
  by rewrite (resources_dict_lookup _ _ _ Hd model), Hinv.
Qed.

(** X10. [get_source_path_generic] itself fails exactly when the
    inventory registers, under the hazard type, some id with an empty
    list of resources, and then with [IndexError]; otherwise it returns a
    resolver. Empty lists under other hazard types do no harm. *)
Theorem generic_construction (inventory : Inventory) (hazard_type : string)
    (embedded : option (gmap string SourcePath)) :
  ((∃ id, inventory !! (hazard_type, id) = Some []) →
     get_source_path_generic hazard_class str_format inventory hazard_type embedded
       = Raise IndexError) ∧
  ((∀ id, inventory !! (hazard_type, id) ≠ Some []) →
     ∃ resolver,
       get_source_path_generic hazard_class str_format inventory hazard_type
         embedded = Ok resolver).
Proof.
  unfold get_source_path_generic. split.
  - intros Hbad.
    destruct (resources_dict_failure inventory hazard_type) as [Hkind Hraise].
    destruct (Hraise Hbad) as [e He]. rewrite He. simpl.
    by rewrite (Hkind e He).
  - intros Hgood.
    destruct (resources_dict_total inventory hazard_type Hgood) as [d ->].
    by eexists.
Qed.
(** X9. On a model that the inventory registers, the answer depends on
    the first resource of that model alone: resolvers built from two
    inventories that agree on it answer alike, whatever else the
    inventories hold (later resources of the model included), whatever
    the embedded fallbacks and the taxonomy. In particular the fallback
    is never consulted for a registered model. *)
Theorem generic_first_resource_wins
    (hazard_class' : string → result string)
    (inventory inventory' : Inventory) (hazard_type hazard_type' : string)
    (embedded embedded' : option (gmap string SourcePath))
    (resolver resolver' : SourcePath) (model scenario : string) (year : Z)
    (resource : HazardResource) (others others' : list HazardResource) :
  get_source_path_generic hazard_class str_format inventory hazard_type embedded
    = Ok resolver →
  get_source_path_generic hazard_class' str_format inventory' hazard_type'
    embedded' = Ok resolver' →
  inventory !! (hazard_type, model) = Some (resource :: others) →
  inventory' !! (hazard_type', model) = Some (resource :: others') →
  resolver model scenario year = resolver' model scenario year.
Proof.
  intros Hgen Hgen' Hinv Hinv'.
  rewrite (generic_lookup_hit _ _ _ _ _ _ _ _ _ Hgen Hinv).
  unfold get_source_path_generic in Hgen'.
  destruct (resources_dict inventory' hazard_type') as [d'|] eqn:Hd'; [|done].
  injection Hgen' as <-.
  pose proof (resources_dict_lookup _ _ _ Hd' model) as Hmodel.
  rewrite Hinv' in Hmodel. simpl in Hmodel.
  unfold get_source_path. by rewrite Hmodel.
Qed.

(** X11. On a model that the inventory does not register under the
    hazard type, a resolver built with an embedded map hands the call to
    the embedded resolver of the hazard type's class, arguments
    unchanged; an exception of the taxonomy is passed on, and a class
    without an entry in the map is a [KeyError]. *)
Theorem generic_miss_uses_embedded (inventory : Inventory) (hazard_type : string)
    (embedded : gmap string SourcePath) (resolver : SourcePath)
    (model scenario : string) (year : Z) :
  get_source_path_generic hazard_class str_format inventory hazard_type
    (Some embedded) = Ok resolver →
  inventory !! (hazard_type, model) = None →
  (∀ e, hazard_class hazard_type = Raise e →
        resolver model scenario year = Raise e) ∧
  (∀ cls, hazard_class hazard_type = Ok cls → embedded !! cls = None →
          resolver model scenario year = Raise (KeyError cls)) ∧
  (∀ cls fallback, hazard_class hazard_type = Ok cls →
                   embedded !! cls = Some fallback →
                   resolver model scenario year = fallback model scenario year).
Proof.
  intros Hgen Hinv.
  destruct (generic_lookup_miss _ _ _ _ _ Hgen Hinv) as (d & Hmodel & ->).
  unfold get_source_path, getitem. rewrite Hmodel.
  split; [|split].
  - by intros e ->.
  - intros cls -> Hnone. simpl. by rewrite Hnone.
  - intros cls fallback -> Hsome. simpl. by rewrite Hsome.
Qed.

(** X12. A registered model whose first resource declares no scenario
    at all cannot be resolved: every call for it raises [IndexError],
    whatever the scenario and the year. *)
Theorem generic_no_scenarios (inventory : Inventory) (hazard_type : string)
    (embedded : option (gmap string SourcePath)) (resolver : SourcePath)
    (model scenario : string) (year : Z)
    (resource : HazardResource) (others : list HazardResource) :
  get_source_path_generic hazard_class str_format inventory hazard_type embedded
    = Ok resolver →
  inventory !! (hazard_type, model) = Some (resource :: others) →
  scenarios resource = [] →
  resolver model scenario year = Raise IndexError.
Proof.
  intros Hgen Hinv Hnone.
  rewrite (generic_lookup_hit _ _ _ _ _ _ _ _ _ Hgen Hinv). by rewrite Hnone.
Qed.

(** X13. For a registered model whose first resource is keyed by RCP
    ids, a scenario and the RCP id it normalises to resolve alike. *)
Theorem generic_rcp_resource_normalises (inventory : Inventory)
    (hazard_type : string) (embedded : option (gmap string SourcePath))
    (resolver : SourcePath) (model scenario rcp : string) (year : Z)
    (resource : HazardResource) (others : list HazardResource)
    (first : Scenario.t) (rest : list Scenario.t) :
  get_source_path_generic hazard_class str_format inventory hazard_type embedded
    = Ok resolver →
  inventory !! (hazard_type, model) = Some (resource :: others) →
  scenarios resource = first :: rest →
  (∃ tail, Scenario.id first = "rcp" +:+ tail) →
  cmip6_scenario_to_rcp scenario = Ok rcp →
  resolver model scenario year = resolver model rcp year.
Proof.
  intros Hgen Hinv Hfirst Hrcp%startswith_spec Hok.
  rewrite !(generic_lookup_hit _ _ _ _ _ _ _ _ _ Hgen Hinv). rewrite Hfirst. simpl.
  rewrite Hrcp, Hok. rewrite cmip6_rcp_fixed; [done|]. by eapply cmip6_ok_range.
Qed.
End GenericExtras.

Lemma example_generic_built (hazard_class : string → result string)
    (embedded : option (gmap string SourcePath)) :
  get_source_path_generic hazard_class format_fields example_inventory
    "RiverineInundation" embedded
  = Ok (get_source_path hazard_class format_fields example_resources_dict
          "RiverineInundation" embedded).
Proof. unfold get_source_path_generic. by rewrite example_resources_dict_built. Qed.

Lemma example_other_generic_built (hazard_class : string → result string)
    (hazard_type : string) (embedded : option (gmap string SourcePath))
    (d : gmap string HazardResource) :
  resources_dict example_other_inventory hazard_type = Ok d →
  get_source_path_generic hazard_class format_fields example_other_inventory
    hazard_type embedded
  = Ok (get_source_path hazard_class format_fields d hazard_type embedded).
Proof. unfold get_source_path_generic. by intros ->. Qed.

Lemma generic_first_resource_wins_witness :
  get_source_path example_hazard_class format_fields example_resources_dict
    "RiverineInundation" None "modelA" "ssp585" 2080
  = get_source_path example_hazard_class_named format_fields
      {[ "modelA" := example_rcp_first_resource ]}
      "CoastalInundation" (Some example_embedded) "modelA" "ssp585" 2080.
Proof.
  refine (generic_first_resource_wins example_hazard_class format_fields
            example_hazard_class_named example_inventory example_other_inventory
            "RiverineInundation" "CoastalInundation" None (Some example_embedded)
            _ _ "modelA" "ssp585" 2080 example_rcp_first_resource
            [example_rcp_resource] [] _ _ eq_refl eq_refl).
  - apply example_generic_built.
  - apply example_other_generic_built. vm_compute. reflexivity.
Defined.

Lemma generic_construction_witness :
  get_source_path_generic example_hazard_class format_fields
    example_other_inventory "Drought" None = Raise IndexError ∧
  ∃ resolver,
    get_source_path_generic example_hazard_class format_fields
      example_other_inventory "Wind" None = Ok resolver.
Proof.
  split.
  - refine (proj1 (generic_construction example_hazard_class format_fields
                     example_other_inventory "Drought" None) _).
    by exists "modelD".
  - refine (proj2 (generic_construction example_hazard_class format_fields
                     example_other_inventory "Wind" None) _).
    intros id. unfold example_other_inventory.
    rewrite !lookup_insert_Some, lookup_singleton_Some.
    intros [[_ [=]]|[_ [[_ [=]]|[_ [[=] _]]]]].
Defined.

Lemma generic_miss_uses_embedded_witness :
  get_source_path example_hazard_class format_fields example_resources_dict
    "RiverineInundation" (Some example_embedded) "00000NorESM1-M" "rcp8p5" 2050
    = Raise (OtherError "AttributeError") ∧
  get_source_path example_hazard_class_named format_fields example_resources_dict
    "RiverineInundation" (Some ∅) "00000NorESM1-M" "rcp8p5" 2050
    = Raise (KeyError "RiverineInundation") ∧
  get_source_path example_hazard_class_named format_fields example_resources_dict
    "RiverineInundation" (Some example_embedded) "00000NorESM1-M" "rcp8p5" 2050
    = Ok (Some "inundation/wri/v2/inunriver_rcp8p5_00000NorESM1-M_2050").
Proof.
  split; [|split].
  - exact (proj1 (generic_miss_uses_embedded example_hazard_class format_fields
                    example_inventory "RiverineInundation" example_embedded _
                    "00000NorESM1-M" "rcp8p5" 2050
                    (example_generic_built _ _) eq_refl)
             _ eq_refl).
  - exact (proj1 (proj2 (generic_miss_uses_embedded example_hazard_class_named
                           format_fields example_inventory "RiverineInundation"
                           ∅ _ "00000NorESM1-M" "rcp8p5" 2050
                           (example_generic_built _ _) eq_refl))
             "RiverineInundation" eq_refl eq_refl).
  - exact (proj2 (proj2 (generic_miss_uses_embedded example_hazard_class_named
                           format_fields example_inventory "RiverineInundation"
                           example_embedded _ "00000NorESM1-M" "rcp8p5" 2050
                           (example_generic_built _ _) eq_refl))
             "RiverineInundation"
             (as_source_path get_source_path_wri_riverine_inundation)
             eq_refl eq_refl).
Defined.

Lemma generic_no_scenarios_witness :
  get_source_path example_hazard_class format_fields
    {[ "modelW" := example_unscoped_resource ]} "Wind" None
    "modelW" "ssp245" 2050 = Raise IndexError.
Proof.
  refine (generic_no_scenarios example_hazard_class format_fields
            example_other_inventory "Wind" None _ "modelW" "ssp245" 2050
            example_unscoped_resource [] _ eq_refl eq_refl).
  apply example_other_generic_built. vm_compute. reflexivity.
Defined.

Lemma generic_rcp_resource_normalises_witness :
  get_source_path example_hazard_class format_fields example_resources_dict
    "RiverineInundation" None "modelA" "ssp245" 2050
  = get_source_path example_hazard_class format_fields example_resources_dict
      "RiverineInundation" None "modelA" "rcp4p5" 2050.
Proof.
  refine (generic_rcp_resource_normalises example_hazard_class format_fields
            example_inventory "RiverineInundation" None _ "modelA" "ssp245"
            "rcp4p5" 2050 example_rcp_first_resource [example_rcp_resource]
            (Scenario.Build "rcp4p5") [Scenario.Build "rcp8p5"]
            (example_generic_built _ _) eq_refl eq_refl _ eq_refl).
  by exists "4p5".
Defined.

(** ** Hazard data providers *)

Section ProviderExtras.
Context {float elt label Store ZarrReader : Type}.
Variable ZarrReader_new : option Store → result ZarrReader.
Variable get_curves :
  ZarrReader → option string → list float → list float → string →
  result (ndarray elt * list label).

(** X14. The constructor obtains its reader before it looks at the
    mode. With no reader passed in, an exception of
    [ZarrReader(store=store)] is what the caller gets, for a legal and
    for an illegal mode alike. With a reader passed in, neither the
    store nor the reader's constructor play any role. *)
Theorem provider_init_reader_first (get_source_path : SourcePath)
    (store : option Store) (interpolation : option string) :
  (∀ e, ZarrReader_new store = Raise e →
        HazardDataProvider_init ZarrReader_new get_source_path store None
          interpolation = Raise e) ∧
  (∀ reader (ZarrReader_new' : option Store → result ZarrReader) store',
     HazardDataProvider_init ZarrReader_new get_source_path store (Some reader)
       interpolation
     = HazardDataProvider_init ZarrReader_new' get_source_path store'
         (Some reader) interpolation).
Proof.
  unfold HazardDataProvider_init. split.
  - by intros e ->.
  - done.
Qed.

(** X15. What a successful construction guarantees: the provider holds
    the resolver it was given, a mode that is floor or linear and is the
    one asked for, and the reader passed in or else the one built from
    the store. *)
Theorem provider_init_invariant (get_source_path : SourcePath)
    (store : option Store) (zarr_reader : option ZarrReader)
    (interpolation : option string) (self : HazardDataProvider) :
  HazardDataProvider_init ZarrReader_new get_source_path store zarr_reader
    interpolation = Ok self →
  _get_source_path self = get_source_path ∧
  interpolation = Some (_interpolation self) ∧
  _interpolation self ∈ ["floor"; "linear"] ∧
  (zarr_reader = Some (_reader self) ∨
   (zarr_reader = None ∧ ZarrReader_new store = Ok (_reader self))).
Proof.
  unfold HazardDataProvider_init.
  destruct zarr_reader as [reader|]; simpl;
    [|destruct (ZarrReader_new store) as [reader|] eqn:Hnew; simpl; [|intros [=]]].
  all: destruct interpolation as [mode|]; [|intros [=]].
  all: destruct (str_in mode ["floor"; "linear"]) eqn:Hin; simpl; [|intros [=]].
  all: intros [= <-]; simpl; apply str_in_true in Hin; auto 10.
Qed.

(** X16. Where the exceptions of a provider come from.
    [get_intensity_curves] raises [e] exactly when the resolver raises
    [e], or the resolver returns and the reader raises [e]: nothing is
    caught, wrapped or added. [get_parameters] raises [e] in the same
    two cases and in one more: the reader returned an array without
    columns, and [e] is [IndexError]. *)
Theorem provider_failure_causes (self : HazardDataProvider)
    (longitudes latitudes : list float) (model scenario : string) (year : Z)
    (e : exn) :
  let upstream :=
    _get_source_path self model scenario year = Raise e ∨
    ∃ path, _get_source_path self model scenario year = Ok path ∧
            get_curves (_reader self) path longitudes latitudes
              (_interpolation self) = Raise e in
  (get_intensity_curves get_curves self longitudes latitudes model scenario year
     = Raise e ↔ upstream) ∧
  (get_parameters get_curves self longitudes latitudes model scenario year
     = Raise e ↔
   upstream ∨
   ∃ path curves return_periods,
     _get_source_path self model scenario year = Ok path ∧
     get_curves (_reader self) path longitudes latitudes (_interpolation self)
       = Ok (curves, return_periods) ∧
     ncols curves = 0%nat ∧ e = IndexError).
Proof.
  unfold get_intensity_curves, get_parameters, column0. simpl.
  destruct (_get_source_path self model scenario year) as [path|e0]; simpl.
  - destruct (get_curves _ path _ _ _) as [[curves return_periods]|e1] eqn:Hread;
      simpl.
    + split.
      * split; [done|]. intros [[=]|(path' & [= <-] & Hread')]. congruence.
      * destruct (Nat.eqb_spec (ncols curves) 0) as [Hzero|Hpos].
        -- split.
           ++ intros [= <-]. right. by exists path, curves, return_periods.
           ++ intros [[[=]|(path' & [= <-] & Hread')]
                     |(path' & c & r & [= <-] & Hread' & _ & ->)];
                [congruence|done].
        -- split; [done|].
           intros [[[=]|(path' & [= <-] & Hread')]
                  |(path' & c & r & [= <-] & Hread' & Hzero & _)];
             [congruence|].
           rewrite Hread in Hread'. injection Hread' as <- _. done.
    + split.
      * split.
        -- intros [= <-]. right. by exists path.
        -- intros [[=]|(path' & [= <-] & Hread')]. congruence.
      * split.
        -- intros [= <-]. left. right. by exists path.
        -- intros [[[=]|(path' & [= <-] & Hread')]
                  |(path' & c & r & [= <-] & Hread' & _)]; congruence.
  - split.
    + split.
      * intros [= <-]. by left.
      * by intros [[= <-]|(path' & [=] & _)].
    + split.
      * intros [= <-]. left. by left.
      * by intros [[[= <-]|(path' & [=] & _)]|(path' & c & r & [=] & _)].
Qed.

(** X17. The provider does not look at what the resolver returned: when
    the resolver answers [None] (the generic resolver's miss), the
    reader is asked all the same, with [None] for a path, and its answer
    is the answer of [get_intensity_curves]. *)
Theorem provider_passes_absent_path
    (hazard_class : string → result string)
    (str_format : string → string → string → Z → result string)
    (inventory : Inventory) (hazard_type : string) (self : HazardDataProvider)
    (longitudes latitudes : list float) (model scenario : string) (year : Z) :
  get_source_path_generic hazard_class str_format inventory hazard_type None
    = Ok (_get_source_path self) →
  inventory !! (hazard_type, model) = None →
  get_intensity_curves get_curves self longitudes latitudes model scenario year
    = get_curves (_reader self) None longitudes latitudes (_interpolation self).
Proof.
  intros Hgen Hinv.
  destruct (generic_lookup_miss _ _ _ _ _ _ _ Hgen Hinv) as (d & Hmodel & Hresolver).
  unfold get_intensity_curves. rewrite Hresolver.
  unfold get_source_path. rewrite Hmodel. simpl.
  by destruct (get_curves _ _ _ _ _) as [[curves return_periods]|].
Qed.

End ProviderExtras.

Lemma provider_init_reader_first_witness :
  HazardDataProvider_init example_reader_unavailable
    (as_source_path get_source_path_osc_chronic_heat) None None (Some "cubic")
    = Raise (OtherError "ConnectionError") ∧
  HazardDataProvider_init example_reader_unavailable
    (as_source_path get_source_path_osc_chronic_heat) None None (Some "floor")
    = Raise (OtherError "ConnectionError").
Proof.
  split.
  - exact (proj1 (provider_init_reader_first example_reader_unavailable
                    (as_source_path get_source_path_osc_chronic_heat)
                    None (Some "cubic")) _ eq_refl).
  - exact (proj1 (provider_init_reader_first example_reader_unavailable
                    (as_source_path get_source_path_osc_chronic_heat)
                    None (Some "floor")) _ eq_refl).
Defined.

Lemma provider_init_invariant_witness :
  _get_source_path example_provider
    = as_source_path get_source_path_osc_chronic_heat ∧
  Some "linear" = Some (_interpolation example_provider) ∧
  _interpolation example_provider ∈ ["floor"; "linear"] ∧
  (None = Some (_reader example_provider) ∨
   ((None : option unit) = None ∧
    example_reader_new (Some tt) = Ok (_reader example_provider))).
Proof.
  exact (provider_init_invariant example_reader_new
           (as_source_path get_source_path_osc_chronic_heat)
           (Some tt) None (Some "linear") example_provider eq_refl).
Defined.

Lemma provider_failure_causes_witness :
  get_intensity_curves example_get_curves example_provider [12; 13] [50; 51]
    "mean_work_loss/extreme" "ssp585" 2100 = Raise AssertionError ∧
  get_parameters example_strict_get_curves example_generic_provider [12] [50]
    "modelZ" "ssp585" 2100 = Raise (OtherError "TypeError") ∧
  get_parameters example_empty_get_curves example_provider [12; 13] [50; 51]
    "mean_work_loss/high" "ssp585" 2100 = Raise IndexError.
Proof.
  split; [|split].
  - apply (proj1 (provider_failure_causes example_get_curves example_provider
                    [12; 13] [50; 51] "mean_work_loss/extreme" "ssp585" 2100
                    AssertionError)).
    by left.
  - apply (proj2 (provider_failure_causes example_strict_get_curves
                    example_generic_provider [12] [50] "modelZ" "ssp585" 2100
                    (OtherError "TypeError"))).
    left. right. by exists None.
  - apply (proj2 (provider_failure_causes example_empty_get_curves
                    example_provider [12; 13] [50; 51] "mean_work_loss/high"
                    "ssp585" 2100 IndexError)).
    right.
    by exists (Some "chronic_heat/osc/v1/mean_work_loss_high_ssp585_2100"),
      {| nrows := 2; ncols := 0; item := λ _ _, 0 |}, [].
Defined.

Lemma provider_passes_absent_path_witness :
  get_intensity_curves example_strict_get_curves example_generic_provider
    [12] [50] "modelZ" "ssp585" 2100
  = example_strict_get_curves tt None [12] [50] "floor".
Proof.
  exact (provider_passes_absent_path example_strict_get_curves
           example_hazard_class format_fields example_inventory
           "RiverineInundation" example_generic_provider [12] [50]
           "modelZ" "ssp585" 2100 (example_generic_built _ _) eq_refl).
Defined.
